(** * ha-saveris-scraper: a shallow embedding of [saveris_scraper/app.py]

    The development follows the layout of the source file:
    - [PyStr]: the Python [str] operations the scraper relies on
      ([strip], [splitlines], [lower], [in], the pattern of [_extract_float]
      and [float]);
    - [Parser]: [_extract_float] and [parse_measurements_cell];
    - [Extractor]: the row loop of [parse_measuring_points];
    - [Cycle]: [open_browser], [find_first], [login], [scrape_once] and
      [background_loop] over an opaque browser session, in a state and
      exception monad that records every call made on the session, and
      the scheduler thread next to the [/data] handler;
    - [Service]: the add-on options and the log endpoint. *)

From Stdlib Require Import List ZArith NArith Bool Lia String Ascii.
From Stdlib Require Import Floats.SpecFloat.
Import ListNotations.

Set Implicit Arguments.

(* ================================================================= *)
(** * Python strings *)

Module PyStr.

(** A Python [str] is a sequence of Unicode code points. *)
Definition pystr := list N.

(** Source literals are written as Rocq strings; the file is UTF-8, so a
    literal is decoded from its UTF-8 bytes. *)
Fixpoint utf8 (s : string) : pystr :=
  match s with
  | EmptyString => []
  | String a s1 =>
    let b := N_of_ascii a in
    if (b <? 0x80)%N then b :: utf8 s1
    else match s1 with
    | EmptyString => [b]
    | String a1 s2 =>
      let b1 := (N_of_ascii a1 - 0x80)%N in
      if (b <? 0xE0)%N then ((b - 0xC0) * 64 + b1)%N :: utf8 s2
      else match s2 with
      | EmptyString => [b; N_of_ascii a1]
      | String a2 s3 =>
        let b2 := (N_of_ascii a2 - 0x80)%N in
        if (b <? 0xF0)%N then (((b - 0xE0) * 64 + b1) * 64 + b2)%N :: utf8 s3
        else match s3 with
        | EmptyString => [b; N_of_ascii a1; N_of_ascii a2]
        | String a3 s4 =>
          let b3 := (N_of_ascii a3 - 0x80)%N in
          ((((b - 0xF0) * 64 + b1) * 64 + b2) * 64 + b3)%N :: utf8 s4
        end
      end
    end
  end.

(** [bool(s)]: a string is falsy exactly when it is empty. *)
Definition truthy (s : pystr) : bool :=
  match s with [] => false | _ :: _ => true end.

(** [x or ""] for an [x] that is a string or [None]. *)
Definition or_empty (x : option pystr) : pystr :=
  match x with Some s => s | None => [] end.

(** [s or None]. *)
Definition or_none (s : pystr) : option pystr :=
  if truthy s then Some s else None.

(** ** [str.isspace] on one code point; the same set is [\s] of [re]
    for a [str] pattern. *)
Definition isspace (c : N) : bool :=
  ((0x09 <=? c) && (c <=? 0x0D) || (0x1C <=? c) && (c <=? 0x1F)
   || (c =? 0x20) || (c =? 0x85) || (c =? 0xA0) || (c =? 0x1680)
   || (0x2000 <=? c) && (c <=? 0x200A) || (c =? 0x2028) || (c =? 0x2029)
   || (c =? 0x202F) || (c =? 0x205F) || (c =? 0x3000))%N.

Fixpoint lstrip (s : pystr) : pystr :=
  match s with
  | [] => []
  | c :: r => if isspace c then lstrip r else s
  end.

Fixpoint rstrip (s : pystr) : pystr :=
  match s with
  | [] => []
  | c :: r =>
    match rstrip r with
    | [] => if isspace c then [] else [c]
    | r' => c :: r'
    end
  end.

Definition strip (s : pystr) : pystr := rstrip (lstrip s).

(** ** [str.splitlines]: the line boundaries, with CR LF as one boundary;
    no empty last line is produced. *)
Definition is_linebreak (c : N) : bool :=
  ((0x0A <=? c) && (c <=? 0x0D) || (0x1C <=? c) && (c <=? 0x1E)
   || (c =? 0x85) || (c =? 0x2028) || (c =? 0x2029))%N.

Fixpoint splitlines_from (cur s : pystr) : list pystr :=
  match s with
  | [] => match cur with [] => [] | _ => [cur] end
  | c :: r =>
    if (c =? 0x0D)%N then
      match r with
      | c1 :: r1 =>
        if (c1 =? 0x0A)%N then cur :: splitlines_from [] r1
        else cur :: splitlines_from [] r
      | [] => cur :: splitlines_from [] r
      end
    else if is_linebreak c then cur :: splitlines_from [] r
    else splitlines_from (cur ++ [c]) r
  end.

Definition splitlines (s : pystr) : list pystr := splitlines_from [] s.

(** ** [str.lower], one code point at a time.

    Exact on every code point whose lower-case form has a code point below
    U+0100: ASCII, Latin-1, and the five letters outside Latin-1 that lower
    into it (U+0130 to [i] and U+0307, U+0178, U+1E9E, the Kelvin and
    Angstrom signs).  The other cased letters of Unicode lower to letters at
    or above U+0100 and are left as they are here: the markers searched in
    a lowered line have all their code points below U+0100. *)
Definition lower_cp (c : N) : pystr :=
  if ((0x41 <=? c) && (c <=? 0x5A))%N then [(c + 32)%N]
  else if ((0xC0 <=? c) && (c <=? 0xDE) && negb (c =? 0xD7))%N then [(c + 32)%N]
  else if (c =? 0x130)%N then [0x69; 0x307]%N
  else if (c =? 0x178)%N then [0xFF]%N
  else if (c =? 0x1E9E)%N then [0xDF]%N
  else if (c =? 0x212A)%N then [0x6B]%N
  else if (c =? 0x212B)%N then [0xE5]%N
  else [c].

Definition lower (s : pystr) : pystr := flat_map lower_cp s.

(** ** [sub in s] *)
Fixpoint starts_with (p s : pystr) : bool :=
  match p, s with
  | [], _ => true
  | _ :: _, [] => false
  | a :: p1, b :: s1 => (a =? b)%N && starts_with p1 s1
  end.

Fixpoint contains (sub s : pystr) : bool :=
  starts_with sub s ||
  match s with
  | [] => false
  | _ :: r => contains sub r
  end.

(** [chr(10).join(lines)], to write a text of several lines. *)
Fixpoint unlines (lines : list pystr) : pystr :=
  match lines with
  | [] => []
  | [ln] => ln
  | ln :: rest => ln ++ 0x0A%N :: unlines rest
  end.

(** ** Decimal digits: [\d] of [re] for a [str] pattern and the digits
    [float] accepts are the code points of category Nd.  They come in runs
    of ten, zero first (Unicode 14.0.0, the database of CPython 3.11); the
    mathematical digits U+1D7CE..U+1D7FF are five such runs in a row. *)
Definition nd_zeros : list N :=
  [0x30; 0x660; 0x6F0; 0x7C0; 0x966; 0x9E6; 0xA66; 0xAE6; 0xB66; 0xBE6;
   0xC66; 0xCE6; 0xD66; 0xDE6; 0xE50; 0xED0; 0xF20; 0x1040; 0x1090; 0x17E0;
   0x1810; 0x1946; 0x19D0; 0x1A80; 0x1A90; 0x1B50; 0x1BB0; 0x1C40; 0x1C50;
   0xA620; 0xA8D0; 0xA900; 0xA9D0; 0xA9F0; 0xAA50; 0xABF0; 0xFF10; 0x104A0;
   0x10D30; 0x11066; 0x110F0; 0x11136; 0x111D0; 0x112F0; 0x11450; 0x114D0;
   0x11650; 0x116C0; 0x11730; 0x118E0; 0x11950; 0x11C50; 0x11D50; 0x11DA0;
   0x16A60; 0x16AC0; 0x16B50;
   0x1D7CE; 0x1D7D8; 0x1D7E2; 0x1D7EC; 0x1D7F6;
   0x1E140; 0x1E2F0; 0x1E950; 0x1FBF0]%N.

(** The digit value of a code point, [None] when it is not a decimal. *)
Definition decimal_value (c : N) : option N :=
  match find (fun z => (z <=? c) && (c <? z + 10))%N nd_zeros with
  | Some z => Some (c - z)%N
  | None => None
  end.

Definition isdecimal (c : N) : bool :=
  match decimal_value c with Some _ => true | None => false end.

(** The longest run of decimal digits at the front of [s], and the rest. *)
Fixpoint span_digits (s : pystr) : pystr * pystr :=
  match s with
  | [] => ([], [])
  | c :: r =>
    if isdecimal c then let '(ds, rest) := span_digits r in (c :: ds, rest)
    else ([], s)
  end.

Definition plus_sign : N := 0x2B.
Definition minus_sign : N := 0x2D.
Definition full_stop : N := 0x2E.

Definition is_sign (c : N) : bool := ((c =? plus_sign) || (c =? minus_sign))%N.

(** The optional sign [[+-]?] at the front of a string, and the rest. *)
Definition split_sign (s : pystr) : pystr * pystr :=
  match s with
  | c :: r => if is_sign c then ([c], r) else ([], s)
  | [] => ([], s)
  end.

(** ** [re.match(r"\s*([+-]?\d+(?:\.\d+)?)", s)], returning [m.group(1)].

    Every quantifier of the pattern is greedy and none of them can give a
    character back to what follows it (a space is neither a sign nor a
    digit, and the fraction is optional), so the match is found in one
    left-to-right pass. *)
Definition match_number (s : pystr) : option pystr :=
  let '(sgn, s2) := split_sign (lstrip s) in
  match span_digits s2 with
  | ([], _) => None
  | (ds, s3) =>
    match s3 with
    | c :: r =>
      if (c =? full_stop)%N then
        match span_digits r with
        | ([], _) => Some (sgn ++ ds)
        | (fs, _) => Some (sgn ++ ds ++ c :: fs)
        end
      else Some (sgn ++ ds)
    | [] => Some (sgn ++ ds)
    end
  end.

End PyStr.

(* ================================================================= *)
(** * Python floats *)

Module PyFloat.
Import PyStr.

(** A Python [float] is an IEEE 754 binary64 number: precision 53, largest
    exponent 1024. *)
Definition float := spec_float.
Definition prec : Z := 53.
Definition emax : Z := 1024.

(** The binary64 number nearest to [m / 10^k] (ties to even), which is what
    [float] returns for a decimal numeral with digits [m] of which [k]
    stand after the point. *)
Definition of_decimal (neg : bool) (m : N) (k : nat) : float :=
  match m with
  | N0 => S754_zero neg
  | Npos p =>
    let '(q, e, l) :=
      SFdiv_core_binary prec emax (Zpos p) 0 (10 ^ Z.of_nat k) 0 in
    binary_round_aux prec emax neg q e l
  end.

(** The number written by a run of decimal digits. *)
Definition digits_value (ds : pystr) : N :=
  fold_left
    (fun acc c =>
       match decimal_value c with
       | Some d => (10 * acc + d)%N
       | None => acc
       end)
    ds 0%N.

(** [float(s)] on the numerals without exponent: an optional sign, digits
    with an optional point among them, at least one digit.  [None] stands
    for [ValueError].  The exponent, [inf], [nan], surrounding blanks and
    underscores between digits, which [float] accepts as well, are left
    out: the pattern of [_extract_float] yields none of them. *)
Definition float_sign (s : pystr) : bool * pystr :=
  match s with
  | c :: r =>
    if (c =? minus_sign)%N then (true, r)
    else if (c =? plus_sign)%N then (false, r)
    else (false, s)
  | [] => (false, s)
  end.

Definition float_unsigned (neg : bool) (s1 : pystr) : option float :=
  let '(ds, s2) := span_digits s1 in
  let '(fs, s3) :=
    match s2 with
    | c :: r => if (c =? full_stop)%N then span_digits r else ([], s2)
    | [] => ([], s2)
    end in
  match ds ++ fs, s3 with
  | _ :: _, [] => Some (of_decimal neg (digits_value (ds ++ fs)) (List.length fs))
  | _, _ => None
  end.

Definition py_float (s : pystr) : option float :=
  let '(neg, s1) := float_sign s in
  float_unsigned neg s1.

End PyFloat.

(* ================================================================= *)
(** * The measurement cell parser *)

Module Parser.
Import PyStr PyFloat.

(** [_extract_float(s)] *)
Definition _extract_float (s : pystr) : option float :=
  if negb (truthy s) then None
  else
    match match_number (strip s) with
    | None => None
    | Some g =>
      match py_float g with
      | Some v => Some v
      | None => None          (* except ValueError *)
      end
    end.

(** The dictionary [out] of [parse_measurements_cell]: its four keys are
    fixed, each value is a float or [None]. *)
Record measurements : Type := {
  temperature_c : option float;
  humidity_pct : option float;
  dew_point_c : option float;
  absolute_humidity_gm3 : option float }.

Definition out_init : measurements :=
  {| temperature_c := None; humidity_pct := None;
     dew_point_c := None; absolute_humidity_gm3 := None |}.

Definition set_temperature_c (out : measurements) (v : float) :=
  {| temperature_c := Some v; humidity_pct := humidity_pct out;
     dew_point_c := dew_point_c out;
     absolute_humidity_gm3 := absolute_humidity_gm3 out |}.

Definition set_humidity_pct (out : measurements) (v : float) :=
  {| temperature_c := temperature_c out; humidity_pct := Some v;
     dew_point_c := dew_point_c out;
     absolute_humidity_gm3 := absolute_humidity_gm3 out |}.

Definition set_dew_point_c (out : measurements) (v : float) :=
  {| temperature_c := temperature_c out; humidity_pct := humidity_pct out;
     dew_point_c := Some v;
     absolute_humidity_gm3 := absolute_humidity_gm3 out |}.

Definition set_absolute_humidity_gm3 (out : measurements) (v : float) :=
  {| temperature_c := temperature_c out; humidity_pct := humidity_pct out;
     dew_point_c := dew_point_c out;
     absolute_humidity_gm3 := Some v |}.

(** The unit markers, as the source writes them. *)
Definition marker_dew : pystr := Eval cbv in utf8 "°c td".
Definition marker_rh : pystr := Eval cbv in utf8 "%rh".
Definition marker_gm3_sup : pystr := Eval cbv in utf8 "g/m³".
Definition marker_gm3 : pystr := Eval cbv in utf8 "g/m3".
Definition marker_temp : pystr := Eval cbv in utf8 "°c".

(** [lines = [ln.strip() for ln in (cell_text or "").splitlines()
              if ln.strip()]] *)
Definition cell_lines (cell_text : pystr) : list pystr :=
  map strip (filter (fun ln => truthy (strip ln)) (splitlines cell_text)).

(** One turn of the loop [for ln in lines]. *)
Definition loop_body (out : measurements) (ln : pystr) : measurements :=
  let l := lower ln in
  match _extract_float ln with
  | None => out                                            (* continue *)
  | Some v =>
    if contains marker_dew l then set_dew_point_c out v
    else if contains marker_rh l then set_humidity_pct out v
    else if contains marker_gm3_sup l || contains marker_gm3 l
      then set_absolute_humidity_gm3 out v
    else if contains marker_temp l then set_temperature_c out v
    else out
  end.

(** [parse_measurements_cell(cell_text)] *)
Definition parse_measurements_cell (cell_text : pystr) : measurements :=
  fold_left loop_body (cell_lines cell_text) out_init.

(** ** The parser as the specification words it *)

Inductive field : Type := Temperature | Humidity | DewPoint | AbsoluteHumidity.

Definition field_eqb (f g : field) : bool :=
  match f, g with
  | Temperature, Temperature | Humidity, Humidity
  | DewPoint, DewPoint | AbsoluteHumidity, AbsoluteHumidity => true
  | _, _ => false
  end.

Definition get (f : field) (out : measurements) : option float :=
  match f with
  | Temperature => temperature_c out
  | Humidity => humidity_pct out
  | DewPoint => dew_point_c out
  | AbsoluteHumidity => absolute_humidity_gm3 out
  end.

Definition set (f : field) (v : float) (out : measurements) : measurements :=
  match f with
  | Temperature => set_temperature_c out v
  | Humidity => set_humidity_pct out v
  | DewPoint => set_dew_point_c out v
  | AbsoluteHumidity => set_absolute_humidity_gm3 out v
  end.

(** The markers in their order of precedence, each with its field. *)
Definition precedence : list (list pystr * field) :=
  [ ([marker_dew], DewPoint);
    ([marker_rh], Humidity);
    ([marker_gm3_sup; marker_gm3], AbsoluteHumidity);
    ([marker_temp], Temperature) ].

(** The field of a line: that of the first entry of [precedence] one of
    whose markers the line contains, whatever the case of its letters. *)
Definition classify (ln : pystr) : option field :=
  match find (fun e => existsb (fun m => contains m (lower ln)) (fst e))
             precedence with
  | Some e => Some (snd e)
  | None => None
  end.

(** A signed decimal numeral: an optional sign, an integer part, an
    optional fractional part. *)
Inductive numeral : pystr -> Prop :=
| numeral_int : forall sgn ds,
    sgn = [] \/ sgn = [plus_sign] \/ sgn = [minus_sign] ->
    ds <> [] -> forallb isdecimal ds = true ->
    numeral (sgn ++ ds)
| numeral_frac : forall sgn ds fs,
    sgn = [] \/ sgn = [plus_sign] \/ sgn = [minus_sign] ->
    ds <> [] -> forallb isdecimal ds = true ->
    fs <> [] -> forallb isdecimal fs = true ->
    numeral (sgn ++ ds ++ full_stop :: fs).

(** [g] is the leading number of [s]: the longest numeral [s] starts with. *)
Definition leading_number (s g : pystr) : Prop :=
  numeral g /\ (exists rest, s = g ++ rest) /\
  forall g' rest', numeral g' -> s = g' ++ rest' ->
    (List.length g' <= List.length g)%nat.

(** The number a line carries: the float its leading number reads as. *)
Definition line_number (ln : pystr) (v : option float) : Prop :=
  match v with
  | Some x => exists g, leading_number (strip ln) g /\ py_float g = Some x
  | None => forall g, ~ leading_number (strip ln) g
  end.

(** No line of the list carries a number. *)
Definition no_number (lines : list pystr) : bool :=
  forallb
    (fun ln => match _extract_float ln with Some _ => false | None => true end)
    lines.

(** The value of the last element of a list, [None] for the empty list. *)
Definition last_value (A : Type) (l : list A) : option A :=
  fold_left (fun _ x => Some x) l None.

(** The numbers of the lines of [lines] that classify to field [f], in
    the order of the lines. *)
Definition numbers_of (f : field) (lines : list pystr) : list float :=
  flat_map
    (fun ln =>
       match classify ln, _extract_float ln with
       | Some g, Some v => if field_eqb f g then [v] else []
       | _, _ => []
       end)
    lines.

End Parser.

(* ================================================================= *)
(** * The rows of the measuring points table *)

Module Extractor.
Import PyStr PyFloat.

(** What the loop of [parse_measuring_points] reads from the page.  An
    element is given by the answers the browser makes to the reads the loop
    performs on it. *)

(** An [a] element: its [.text]. *)
Record anchor : Type := { a_text : option pystr }.

(** A [td] element: its [.text], its [innerText] attribute ([None] when the
    browser reports none) and the [a] elements below it in document order,
    which is where [find_element(By.TAG_NAME, "a")] looks. *)
Record td : Type := {
  td_text : option pystr;
  td_innerText : option pystr;
  td_anchors : list anchor }.

(** A [tr] element: its [class] attribute and the [td] elements that
    [find_elements(By.TAG_NAME, "td")] returns. *)
Record tr : Type := {
  tr_class : option pystr;
  tr_tds : list td }.

(** The dictionary appended to [results] for one row. *)
Record point : Type := {
  measuring_point : pystr;
  group : option pystr;
  temperature_c : option float;
  humidity_pct : option float;
  dew_point_c : option float;
  absolute_humidity_gm3 : option float;
  last_measurement : option pystr;
  internal_id : option pystr }.

Definition row_details : pystr := Eval cbv in utf8 "row-details".

(** [a or b] on values that are a string or [None]. *)
Definition py_or (a b : option pystr) : option pystr :=
  match a with
  | Some (_ :: _) => a
  | _ => b
  end.

(** [tds[i]]; the loop indexes only after [len(tds) < 7] has failed, so
    the index is always in range and the default is never returned. *)
Definition item (tds : list td) (i : nat) : td :=
  nth i tds {| td_text := None; td_innerText := None; td_anchors := [] |}.

(** [tds[3].find_element(By.TAG_NAME, "a")]: the first [a] element, or
    [None] for [NoSuchElementException]. *)
Definition find_element_a (cell : td) : option anchor :=
  match td_anchors cell with
  | a :: _ => Some a
  | [] => None
  end.

(** The [try] statement that binds [group]. *)
Definition group_of (cell : td) : option pystr :=
  match find_element_a cell with
  | Some a => Some (strip (or_empty (a_text a)))
  | None =>                      (* except NoSuchElementException *)
    or_none (strip (or_empty (td_text cell)))
  end.

(** The dictionary built from a row whose [tds] passed the tests. *)
Definition point_of (tds : list td) : point :=
  let measuring_point := strip (or_empty (td_text (item tds 2))) in
  let group := group_of (item tds 3) in
  let cell_text :=
    strip (or_empty (py_or (py_or (td_innerText (item tds 4))
                                  (td_text (item tds 4)))
                           (Some []))) in
  let parsed := Parser.parse_measurements_cell cell_text in
  let last_meas := or_none (strip (or_empty (td_text (item tds 5)))) in
  let internal_id := or_none (strip (or_empty (td_text (item tds 6)))) in
  {| measuring_point := measuring_point;
     group := group;
     temperature_c := Parser.temperature_c parsed;
     humidity_pct := Parser.humidity_pct parsed;
     dew_point_c := Parser.dew_point_c parsed;
     absolute_humidity_gm3 := Parser.absolute_humidity_gm3 parsed;
     last_measurement := last_meas;
     internal_id := internal_id |}.

(** The tests that make the loop [continue]. *)
Definition is_detail_row (r : tr) : bool :=
  contains row_details (or_empty (tr_class r)).

Definition is_short_row (r : tr) : bool :=
  (List.length (tr_tds r) <? 7)%nat.

(** One turn of the loop [for tr in trs]. *)
Definition row_step (results : list point) (r : tr) : list point :=
  if is_detail_row r then results                          (* continue *)
  else
    let tds := tr_tds r in
    if is_short_row r then results                         (* continue *)
    else results ++ [point_of tds].                        (* append *)

(** The loop of [parse_measuring_points] over the rows of the table body. *)
Definition parse_rows (trs : list tr) : list point :=
  fold_left row_step trs [].

(** A data row: neither a detail row nor a short one. *)
Definition is_data_row (r : tr) : bool :=
  negb (is_detail_row r) && negb (is_short_row r).

End Extractor.

(* ================================================================= *)
(** * The scrape cycle and its scheduler *)

Module Cycle.
Import PyStr Extractor.
Local Open Scope string_scope.

(** ** Exceptions *)

(** The classes the source names, and one constructor for every class of
    [Exception] outside the [RuntimeError] and [WebDriverException]
    hierarchies ([OSError], [ValueError], urllib3's [MaxRetryError], ...).
    [TimeoutException] and [NoSuchElementException] are subclasses of
    [WebDriverException]. *)
Inductive exc_class : Type :=
| RuntimeError
| WebDriverException
| TimeoutException
| NoSuchElementException
| OtherException (name : string).

(** A raised exception: its class and [str(e)]. *)
Record exn : Type := { exc_type : exc_class; exc_str : string }.

Definition is_RuntimeError (e : exn) : bool :=
  match exc_type e with RuntimeError => true | _ => false end.

Definition is_WebDriverException (e : exn) : bool :=
  match exc_type e with
  | WebDriverException | TimeoutException | NoSuchElementException => true
  | _ => false
  end.

Definition is_TimeoutException (e : exn) : bool :=
  match exc_type e with TimeoutException => true | _ => false end.

Definition is_NoSuchElementException (e : exn) : bool :=
  match exc_type e with NoSuchElementException => true | _ => false end.

(** [except Exception]: every modelled class derives from [Exception]. *)
Definition is_Exception (e : exn) : bool := true.

(** [except (RuntimeError, WebDriverException, TimeoutException)] *)
Definition recognized (e : exn) : bool :=
  is_RuntimeError e || is_WebDriverException e || is_TimeoutException e.

(** ** Published values *)

Inductive value : Type :=
| VStr (s : string)
| VInt (n : Z)
| VList (rows : list point).

(** A dictionary, its items in insertion order. *)
Definition pydict := list (string * value).

Fixpoint dict_get (k : string) (d : pydict) : option value :=
  match d with
  | [] => None
  | (k', v) :: r => if String.eqb k k' then Some v else dict_get k r
  end.

(** ** The browser session *)

Definition driver := nat.
Definition element := nat.

Inductive By : Type := CSS_SELECTOR | XPATH | TAG_NAME.

(** What a [WebDriverWait(...).until] of the source waits for. *)
Inductive condition : Type :=
| login_input_found          (* lambda d: find_first(d, [...]) is not None *)
| url_left_login             (* lambda d: d.current_url != LOGIN_URL *)
| table_body_present.        (* EC.presence_of_element_located(...) *)

(** Every call the program makes on the session layer, and the sleeps. *)
Inductive event : Type :=
| EvServiceStart
| EvServiceStop
| EvChrome (session : option driver)   (* the session created, if any *)
| EvGet (d : driver) (url : string)
| EvWaitUntil (d : driver) (c : condition) (timeout : Z)
| EvFindElement (d : driver) (b : By) (sel : string)
| EvClear (el : element)
| EvSendKeys (el : element) (keys : pystr)
| EvClick (el : element)
| EvReadTable (d : driver)
| EvQuit (d : driver) (returned : bool)  (* whether the call returned *)
| EvSleep (seconds : Z).

Definition result (A : Type) : Type := (exn + A)%type.

(** Whether a call returned, rather than raised. *)
Definition returned (A : Type) (r : result A) : bool :=
  match r with
  | inr _ => true
  | inl _ => false
  end.

(** The session capability: chromedriver, the browser and the portal behind
    it, as a state [W] and the answer (a value or a raised exception) to
    each call.  [read_table] stands for the reads of
    [parse_measuring_points]: the table body, its [tr] children and the
    attributes and texts of their cells; the first read that raises ends
    them all.  [sleep] is [time.sleep]: it raises when the clock of the
    platform cannot take the duration ([OverflowError] above about 9.2e9
    seconds in CPython 3.11). *)
Record SessionDriver (W : Type) : Type := {
  service_start : W -> result unit * W;
  service_stop : W -> result unit * W;
  chrome : bool -> W -> result driver * W;
  get : driver -> string -> W -> result unit * W;
  wait_until : driver -> condition -> Z -> W -> result unit * W;
  find_element : driver -> By -> string -> W -> result element * W;
  clear : element -> W -> result unit * W;
  send_keys : element -> pystr -> W -> result unit * W;
  click : element -> W -> result unit * W;
  read_table : driver -> W -> result (list tr) * W;
  quit : driver -> W -> result unit * W;
  sleep : Z -> W -> result unit * W }.

(** The add-on options resolved at start-up. *)
Record options : Type := {
  EMAIL : pystr;
  PASSWORD : pystr;
  SCAN_INTERVAL : Z }.

Definition LOGIN_URL : string := "https://www.saveris.net/users/login".
Definition MEASURING_POINTS_URL : string := "https://www.saveris.net/MeasuringPts".

Definition _latest_init : pydict :=
  [ ("status", VStr "init");
    ("count", VInt 0);
    ("measuring_points", VList []) ].

Section Program.

Variable W : Type.
Variable session : SessionDriver W.
Variable opts : options.

(** ** Program state *)

(** The world outside, the calls made so far, the local [driver] of
    [scrape_once], the global [_latest], and the values assigned to
    [_latest] so far (oldest first). *)
Record state : Type := {
  world : W;
  calls : list event;
  var_driver : option driver;
  _latest : pydict;
  published : list pydict }.

Definition init_state (w : W) : state :=
  {| world := w; calls := []; var_driver := None;
     _latest := _latest_init; published := [] |}.

(** A computation: from a state to a value or a raised exception, and the
    state it leaves. *)
Definition M (A : Type) : Type := state -> result A * state.

Definition ret (A : Type) (a : A) : M A := fun st => (inr a, st).

Definition raise (A : Type) (e : exn) : M A := fun st => (inl e, st).

Definition bind (A B : Type) (m : M A) (k : A -> M B) : M B :=
  fun st =>
    match m st with
    | (inr a, st') => k a st'
    | (inl e, st') => (inl e, st')
    end.

(** [try: body  except <classes> as e: handler] *)
Definition try_except (A : Type) (body : M A) (classes : exn -> bool)
    (handler : exn -> M A) : M A :=
  fun st =>
    match body st with
    | (inl e, st') => if classes e then handler e st' else (inl e, st')
    | r => r
    end.

(** [try: body  finally: fin]: [fin] runs on the way out whatever [body]
    did; an exception of [fin] replaces the outcome of [body]. *)
Definition try_finally (A : Type) (body : M A) (fin : M unit) : M A :=
  fun st =>
    let '(r, st') := body st in
    match fin st' with
    | (inr _, st'') => (r, st'')
    | (inl e, st'') => (inl e, st'')
    end.

(** A call on the session layer: it is answered and recorded; [ev] may
    record the answer with the call. *)
Definition perform_with (A : Type) (ev : result A -> event)
    (cap : W -> result A * W) : M A :=
  fun st =>
    let '(r, w) := cap (world st) in
    (r, {| world := w; calls := calls st ++ [ev r];
           var_driver := var_driver st; _latest := _latest st;
           published := published st |}).

Definition perform (A : Type) (ev : event) (cap : W -> result A * W) : M A :=
  perform_with (fun _ => ev) cap.

Definition set_var_driver (d : option driver) : M unit :=
  fun st =>
    (inr tt, {| world := world st; calls := calls st; var_driver := d;
                _latest := _latest st; published := published st |}).

Definition get_var_driver : M (option driver) :=
  fun st => (inr (var_driver st), st).

(** [with _latest_lock: _latest = data] *)
Definition set_latest (data : pydict) : M unit :=
  fun st =>
    (inr tt, {| world := world st; calls := calls st;
                var_driver := var_driver st; _latest := data;
                published := published st ++ [data] |}).

Notation "x <- m ;; k" := (bind m (fun x => k))
  (at level 61, m at next level, right associativity).
Notation "m ;; k" := (bind m (fun _ => k))
  (at level 61, right associativity).

(** ** [open_browser] *)

(** [webdriver.Chrome(service=service, options=opts)]; the options are the
    fixed flags of the source and the two head-less flags. *)
Definition new_chrome (headless : bool) : M driver :=
  perform_with
    (fun r => EvChrome match r with inr d => Some d | inl _ => None end)
    (chrome session headless).

Definition open_browser (headless : bool) : M driver :=
  perform EvServiceStart (service_start session) ;;
  try_except (new_chrome headless) is_Exception
    (fun e =>
       try_except (perform EvServiceStop (service_stop session))
         is_Exception (fun _ => ret tt) ;;
       raise driver e).

(** ** [find_first] *)

Fixpoint find_first (d : driver) (selectors : list (By * string))
    : M (option element) :=
  match selectors with
  | [] => ret None
  | (b, sel) :: rest =>
    try_except
      (el <- perform (EvFindElement d b sel) (find_element session d b sel) ;;
       ret (Some el))
      is_NoSuchElementException
      (fun _ => find_first d rest)                         (* continue *)
  end.

(** ** [login] *)

Definition email_selectors : list (By * string) :=
  [ (CSS_SELECTOR, "input[type='email']");
    (CSS_SELECTOR, "input[name='email']");
    (CSS_SELECTOR, "input[name='username']");
    (CSS_SELECTOR, "input[type='text']") ].

Definition password_selectors : list (By * string) :=
  [ (CSS_SELECTOR, "input[type='password']");
    (XPATH, "//input[@type='password']") ].

Definition submit_selectors : list (By * string) :=
  [ (CSS_SELECTOR, "button[type='submit']");
    (CSS_SELECTOR, "input[type='submit']");
    (XPATH, "//button[contains(., 'Login') or contains(., 'Log in') or contains(., 'Sign in')]") ].

Definition newline : pystr := [0x0A%N].

Definition login (d : driver) (email password : pystr) (timeout : Z)
    : M unit :=
  perform (EvGet d LOGIN_URL) (get session d LOGIN_URL) ;;
  perform (EvWaitUntil d login_input_found timeout)
          (wait_until session d login_input_found timeout) ;;
  email_input <- find_first d email_selectors ;;
  pwd_input <- find_first d password_selectors ;;
  match email_input, pwd_input with
  | Some email_input, Some pwd_input =>
    perform (EvClear email_input) (clear session email_input) ;;
    perform (EvSendKeys email_input email)
            (send_keys session email_input email) ;;
    perform (EvClear pwd_input) (clear session pwd_input) ;;
    perform (EvSendKeys pwd_input password)
            (send_keys session pwd_input password) ;;
    submit <- find_first d submit_selectors ;;
    match submit with
    | Some submit => perform (EvClick submit) (click session submit)
    | None => perform (EvSendKeys pwd_input newline)
                      (send_keys session pwd_input newline)
    end ;;
    try_except
      (perform (EvWaitUntil d url_left_login timeout)
               (wait_until session d url_left_login timeout))
      is_TimeoutException
      (fun _ => ret tt)                                    (* pass *)
  | _, _ =>
    raise unit {| exc_type := RuntimeError;
                  exc_str := "Could not locate email/password inputs" |}
  end.

(** ** [parse_measuring_points] *)

Definition parse_measuring_points (d : driver) : M (list point) :=
  trs <- perform (EvReadTable d) (read_table session d) ;;
  ret (parse_rows trs).

(** ** [scrape_once] *)

Definition time_sleep (seconds : Z) : M unit :=
  perform (EvSleep seconds) (sleep session seconds).

Definition missing_credentials : pydict :=
  [ ("status", VStr "error");
    ("error", VStr "Missing EMAIL or PASSWORD add-on options");
    ("count", VInt 0);
    ("measuring_points", VList []) ].

Definition ok_snapshot (rows : list point) : pydict :=
  [ ("status", VStr "ok");
    ("count", VInt (Z.of_nat (List.length rows)));
    ("measuring_points", VList rows) ].

Definition error_snapshot (e : exn) : pydict :=
  [ ("status", VStr "error");
    ("error", VStr (exc_str e));
    ("count", VInt 0);
    ("measuring_points", VList []) ].

(** The body of the [try] statement: its first statement, which binds
    [driver], and the statements after it. *)
Definition scrape_page (d : driver) : M pydict :=
  login d (EMAIL opts) (PASSWORD opts) 30 ;;
  perform (EvGet d MEASURING_POINTS_URL) (get session d MEASURING_POINTS_URL) ;;
  perform (EvWaitUntil d table_body_present 30)
          (wait_until session d table_body_present 30) ;;
  time_sleep 1 ;;
  rows <- parse_measuring_points d ;;
  ret (ok_snapshot rows).

Definition scrape_attempt : M pydict :=
  d <- open_browser true ;;
  set_var_driver (Some d) ;;                     (* driver = ... *)
  scrape_page d.

(** The [finally] clause. *)
Definition release_driver : M unit :=
  try_except
    (dv <- get_var_driver ;;
     match dv with
     | Some d =>                                            (* if driver: *)
       perform_with (fun r => EvQuit d (returned r)) (quit session d)
     | None => ret tt
     end)
    is_Exception
    (fun _ => ret tt).                                     (* pass *)

Definition scrape_once : M pydict :=
  if negb (truthy (EMAIL opts)) || negb (truthy (PASSWORD opts)) then
    ret missing_credentials
  else
    set_var_driver None ;;                       (* driver = None *)
    try_finally
      (try_except scrape_attempt recognized
         (fun e => ret (error_snapshot e)))
      release_driver.

(** ** [background_loop] *)

(** The first [turns] turns of [while True]: the loop itself never
    returns; it ends only when a turn raises. *)
Fixpoint background_loop (turns : nat) : M unit :=
  match turns with
  | O => ret tt
  | S n =>
    data <- scrape_once ;;
    set_latest data ;;
    time_sleep (Z.max 30 (SCAN_INTERVAL opts)) ;;
    background_loop n
  end.

(** ** The process

    [__main__] starts [background_loop] in a daemon thread and serves the
    HTTP requests in the main thread.  An exception that escapes the
    target of a thread ends that thread only: the thread's bootstrap
    catches it and hands it to [threading.excepthook], which prints it. *)
Definition thread_run (target : M unit) : M unit :=
  try_except target is_Exception (fun _ => ret tt).

(** The handler of [/data]: [with _latest_lock: return jsonify(_latest)]. *)
Definition data : M pydict := fun st => (inr (_latest st), st).

(** A [/data] request served once the scheduler thread has run [turns]
    turns of its loop, or has ended before that. *)
Definition data_after (turns : nat) : M pydict :=
  thread_run (background_loop turns) ;; data.

End Program.

(** ** Properties of snapshots and of call records *)

Fixpoint str_contains (sub s : string) : bool :=
  String.prefix sub s ||
  match s with
  | EmptyString => false
  | String _ r => str_contains sub r
  end.

(** The invariant of a published snapshot. *)
Definition snapshot_invariant (s : pydict) : Prop :=
  (dict_get "status" s = Some (VStr "ok") ->
     dict_get "error" s = None /\
     exists rows, dict_get "measuring_points" s = Some (VList rows) /\
                  dict_get "count" s = Some (VInt (Z.of_nat (List.length rows))))
  /\
  (dict_get "status" s = Some (VStr "error") ->
     dict_get "measuring_points" s = Some (VList [])).

(** A snapshot that reports a failure with a message. *)
Definition is_error_snapshot (s : pydict) : Prop :=
  dict_get "status" s = Some (VStr "error") /\
  (exists msg, dict_get "error" s = Some (VStr msg)) /\
  dict_get "count" s = Some (VInt 0) /\
  dict_get "measuring_points" s = Some (VList []).

(** The sessions still open after the calls [evs], starting with the
    sessions [open]: a session is open from its creation until a [quit]
    on it returns; a [quit] that raised closed nothing. *)
Fixpoint sessions_left (open : list driver) (evs : list event) : list driver :=
  match evs with
  | [] => open
  | EvChrome (Some d) :: r => sessions_left (d :: open) r
  | EvQuit d true :: r => sessions_left (remove Nat.eq_dec d open) r
  | _ :: r => sessions_left open r
  end.

(** The calls other than the creation of a session and [quit]. *)
Definition is_plain_call (ev : event) : bool :=
  match ev with
  | EvChrome _ | EvQuit _ _ => false
  | _ => true
  end.

(** [st'] is [st] after the calls [evs], with [_latest] and its history
    untouched. *)
Definition after (W : Type) (st : state W) (evs : list event)
    (st' : state W) : Prop :=
  calls st' = (calls st ++ evs)%list /\
  _latest st' = _latest st /\
  published st' = published st.

(** A computation that makes only plain calls and does not assign the
    local [driver]. *)
Definition quiet (W A : Type) (m : M W A) : Prop :=
  forall st, exists evs,
    after st evs (snd (m st)) /\
    forallb is_plain_call evs = true /\
    var_driver (snd (m st)) = var_driver st.

(** The three forms of dictionary [scrape_once] builds. *)
Definition scrape_result (x : pydict) : Prop :=
  x = missing_credentials \/
  (exists rows, x = ok_snapshot rows) \/
  (exists e, recognized e = true /\ x = error_snapshot e).

(** The status of a snapshot is "ok" or "error". *)
Definition ok_or_error (s : pydict) : Prop :=
  dict_get "status" s = Some (VStr "ok") \/
  dict_get "status" s = Some (VStr "error").

(** ** Scripted sessions

    A session whose answers are fixed in advance, to run the program on
    concrete scenarios.  Its state counts the calls answered. *)

Record script : Type := {
  on_service_start : option exn;
  on_chrome : result driver;
  on_get : string -> option exn;
  on_wait_until : condition -> option exn;
  on_find_element : By -> string -> result element;
  on_read_table : result (list tr);
  on_quit : option exn }.

(** What CPython 3.11 raises for [time.sleep(seconds)] when [seconds]
    does not fit its 64-bit count of nanoseconds. *)
Definition overflow_error : exn :=
  {| exc_type := OtherException "OverflowError";
     exc_str := "timestamp too large to convert to C _PyTime_t" |}.

Definition answer (o : option exn) : result unit :=
  match o with
  | Some e => inl e
  | None => inr tt
  end.

Definition scripted (s : script) : SessionDriver nat :=
  {| service_start := fun w => (answer (on_service_start s), S w);
     service_stop := fun w => (inr tt, S w);
     chrome := fun _ w => (on_chrome s, S w);
     get := fun _ url w => (answer (on_get s url), S w);
     wait_until := fun _ c _ w => (answer (on_wait_until s c), S w);
     find_element := fun _ b sel w => (on_find_element s b sel, S w);
     clear := fun _ w => (inr tt, S w);
     send_keys := fun _ _ w => (inr tt, S w);
     click := fun _ w => (inr tt, S w);
     read_table := fun _ w => (on_read_table s, S w);
     quit := fun _ w => (answer (on_quit s), S w);
     sleep := fun seconds w =>
       (if (9223372036 <? seconds)%Z then inl overflow_error else inr tt,
        S w) |}.

Definition no_such_element : exn :=
  {| exc_type := NoSuchElementException; exc_str := "no such element" |}.

(** The login form of the portal: an email field, a password field and a
    submit button. *)
Definition portal_form (b : By) (sel : string) : result element :=
  if String.eqb sel "input[type='email']" then inr 1%nat
  else if String.eqb sel "input[type='password']" then inr 2%nat
  else if String.eqb sel "button[type='submit']" then inr 3%nat
  else inl no_such_element.

Definition text_cell (s : string) : td :=
  {| td_text := Some (utf8 s); td_innerText := Some (utf8 s);
     td_anchors := [] |}.

Definition link_cell (s : string) : td :=
  {| td_text := Some (utf8 s); td_innerText := Some (utf8 s);
     td_anchors := [ {| a_text := Some (utf8 s) |} ] |}.

Definition data_row (name grp cell stamp ident : string) : tr :=
  {| tr_class := Some (utf8 "odd");
     tr_tds := [ text_cell ""; text_cell ""; text_cell name; link_cell grp;
                 text_cell cell; text_cell stamp; text_cell ident ] |}.

Definition detail_row : tr :=
  {| tr_class := Some (utf8 "row-details hidden");
     tr_tds := [ text_cell ""; text_cell ""; text_cell "Cellar";
                 link_cell "House"; text_cell "4.0 °C";
                 text_cell "2024-01-01 10:00"; text_cell "77" ] |}.

Definition short_row : tr :=
  {| tr_class := None; tr_tds := [ text_cell "No data available" ] |}.

Definition sample_table : list tr :=
  [ data_row "Cellar" "House" "12.5 °C" "2024-01-01 10:00" "77";
    detail_row;
    short_row;
    data_row "Attic" "House" "45 %rH" "2024-01-01 10:05" "78" ].

(** A row whose group cell holds a link without text:
    [<td><a href="..."></a></td>]. *)
Definition empty_link_row : tr :=
  {| tr_class := Some (utf8 "odd");
     tr_tds := [ text_cell ""; text_cell ""; text_cell "Cellar";
                 {| td_text := Some []; td_innerText := Some [];
                    td_anchors := [ {| a_text := Some [] |} ] |};
                 text_cell "12.5 °C"; text_cell "2024-01-01 10:00";
                 text_cell "77" ] |}.

(** The same row with an empty group cell and no link in it: [<td></td>]. *)
Definition empty_group_row : tr :=
  {| tr_class := Some (utf8 "odd");
     tr_tds := [ text_cell ""; text_cell ""; text_cell "Cellar";
                 {| td_text := Some []; td_innerText := Some [];
                    td_anchors := [] |};
                 text_cell "12.5 °C"; text_cell "2024-01-01 10:00";
                 text_cell "77" ] |}.

(** The portal answers and shows [sample_table]. *)
Definition portal_up : script :=
  {| on_service_start := None;
     on_chrome := inr 7%nat;
     on_get := fun _ => None;
     on_wait_until := fun _ => None;
     on_find_element := portal_form;
     on_read_table := inr sample_table;
     on_quit := None |}.

(** The table never shows: the wait for it times out. *)
Definition table_missing : script :=
  {| on_service_start := None;
     on_chrome := inr 7%nat;
     on_get := fun _ => None;
     on_wait_until := fun c =>
       match c with
       | table_body_present =>
         Some {| exc_type := TimeoutException; exc_str := "Message: " |}
       | _ => None
       end;
     on_find_element := portal_form;
     on_read_table := inr [];
     on_quit := None |}.

(** chromedriver dies while the data page loads: the HTTP client under
    selenium raises urllib3's [MaxRetryError], which is no
    [WebDriverException]; the later [quit] cannot reach it either. *)
Definition max_retry_error : exn :=
  {| exc_type := OtherException "MaxRetryError";
     exc_str := "HTTPConnectionPool(host='localhost', port=9515): Max retries exceeded" |}.

Definition driver_crash : script :=
  {| on_service_start := None;
     on_chrome := inr 7%nat;
     on_get := fun url =>
       if String.eqb url MEASURING_POINTS_URL then Some max_retry_error
       else None;
     on_wait_until := fun _ => None;
     on_find_element := portal_form;
     on_read_table := inr [];
     on_quit := Some max_retry_error |}.

Definition some_options : options :=
  {| EMAIL := utf8 "user@example.org"; PASSWORD := utf8 "secret";
     SCAN_INTERVAL := 300 |}.

Definition no_password : options :=
  {| EMAIL := utf8 "user@example.org"; PASSWORD := []; SCAN_INTERVAL := 300 |}.

(** [scan_interval_seconds: 10000000000000000000] in the options file. *)
Definition huge_interval : options :=
  {| EMAIL := utf8 "user@example.org"; PASSWORD := utf8 "secret";
     SCAN_INTERVAL := 10 ^ 19 |}.

(** ** Parts of the program and views of its calls *)

Section Derived.

Variable W : Type.
Variable session : SessionDriver W.

(** The statements of [login] up to the test of the two inputs, returning
    what the two look-ups found. *)
Definition login_probe (d : driver) (timeout : Z)
    : M W (option element * option element) :=
  bind (perform (EvGet d LOGIN_URL) (get session d LOGIN_URL)) (fun _ =>
  bind (perform (EvWaitUntil d login_input_found timeout)
                (wait_until session d login_input_found timeout)) (fun _ =>
  bind (find_first session d email_selectors) (fun email_input =>
  bind (find_first session d password_selectors) (fun pwd_input =>
  ret (email_input, pwd_input))))).

(** The session that answers as [session] does, except that a wait for
    the URL to leave the login page that times out is answered as one that
    succeeded. *)
Definition url_wait_forgiven : SessionDriver W :=
  {| service_start := service_start session;
     service_stop := service_stop session;
     chrome := chrome session;
     get := get session;
     wait_until := fun d c timeout w =>
       match c with
       | url_left_login =>
         match wait_until session d c timeout w with
         | (inl e, w') =>
           if is_TimeoutException e then (inr tt, w') else (inl e, w')
         | r => r
         end
       | _ => wait_until session d c timeout w
       end;
     find_element := find_element session;
     clear := clear session;
     send_keys := send_keys session;
     click := click session;
     read_table := read_table session;
     quit := quit session;
     sleep := sleep session |}.

(** A computation all of whose calls satisfy [P]. *)
Definition confined (A : Type) (P : event -> bool) (m : M W A) : Prop :=
  forall st, exists evs,
    calls (snd (m st)) = (calls st ++ evs)%list /\
    forallb P evs = true.

(** The answers [session] gives when the selectors are looked up one
    after the other, all of them, each with the state it leaves. *)
Fixpoint lookups (d : driver) (selectors : list (By * string)) (w : W)
    : list (result element * W) :=
  match selectors with
  | [] => []
  | (b, sel) :: rest =>
    let r := find_element session d b sel w in
    r :: lookups d rest (snd r)
  end.

(** The number of answers at the front that are a
    [NoSuchElementException]. *)
Fixpoint leading_misses (answers : list (result element * W)) : nat :=
  match answers with
  | (inl e, _) :: rest =>
    if is_NoSuchElementException e then S (leading_misses rest) else 0%nat
  | _ => 0%nat
  end.

(** The statements of [login] before its last one, the wait for the URL
    to leave the login page. *)
Definition login_submit (d : driver) (email password : pystr) (timeout : Z)
    : M W unit :=
  bind (perform (EvGet d LOGIN_URL) (get session d LOGIN_URL)) (fun _ =>
  bind (perform (EvWaitUntil d login_input_found timeout)
                (wait_until session d login_input_found timeout)) (fun _ =>
  bind (find_first session d email_selectors) (fun email_input =>
  bind (find_first session d password_selectors) (fun pwd_input =>
  match email_input, pwd_input with
  | Some email_input, Some pwd_input =>
    bind (perform (EvClear email_input) (clear session email_input)) (fun _ =>
    bind (perform (EvSendKeys email_input email)
                  (send_keys session email_input email)) (fun _ =>
    bind (perform (EvClear pwd_input) (clear session pwd_input)) (fun _ =>
    bind (perform (EvSendKeys pwd_input password)
                  (send_keys session pwd_input password)) (fun _ =>
    bind (find_first session d submit_selectors) (fun submit =>
    match submit with
    | Some submit => perform (EvClick submit) (click session submit)
    | None => perform (EvSendKeys pwd_input newline)
                      (send_keys session pwd_input newline)
    end)))))
  | _, _ =>
    raise unit {| exc_type := RuntimeError;
                  exc_str := "Could not locate email/password inputs" |}
  end)))).

(** One of the selectors is found whenever it is looked up. *)
Definition always_found (selectors : list (By * string)) : Prop :=
  exists b sel,
    In (b, sel) selectors /\
    forall d w, exists el, fst (find_element session d b sel w) = inr el.

(** A portal that answers every call and shows the table [rows]: the
    service starts, the session is created, pages load, waits end (the
    wait for the URL to leave the login page may time out), a look-up
    raises nothing but [NoSuchElementException], the login page has an
    email input and a password input, inputs take keys and clicks, the
    one-second sleep returns and the reads of the table give [rows].
    Nothing is asked of [quit], of [service.stop()] or of longer
    sleeps. *)
Record portal_answers (rows : list tr) : Prop := {
  service_starts : forall w, fst (service_start session w) = inr tt;
  session_created : forall headless w,
    exists d, fst (chrome session headless w) = inr d;
  page_loads : forall d url w, fst (get session d url w) = inr tt;
  wait_ends : forall d c timeout w,
    fst (wait_until session d c timeout w) = inr tt \/
    (c = url_left_login /\
     exists e, fst (wait_until session d c timeout w) = inl e /\
               is_TimeoutException e = true);
  lookup_misses_only : forall d b sel w e,
    fst (find_element session d b sel w) = inl e ->
    is_NoSuchElementException e = true;
  email_input_shown : always_found email_selectors;
  password_input_shown : always_found password_selectors;
  input_clears : forall el w, fst (clear session el w) = inr tt;
  input_takes_keys : forall el keys w, fst (send_keys session el keys w) = inr tt;
  button_clicks : forall el w, fst (click session el w) = inr tt;
  short_sleep_returns : forall w, fst (sleep session 1 w) = inr tt;
  table_read : forall d w, fst (read_table session d w) = inr rows }.

(** ** Sessions with book-keeping

    The state of [session] together with the sessions open in it -- those
    created and not yet closed by a [quit] that returned -- and the
    largest number of sessions that were open at the same time. *)
Record tracked : Type := {
  inner : W;
  open_now : list driver;
  open_peak : nat }.

(** A call that opens and closes nothing. *)
Definition untracked (A : Type) (cap : W -> result A * W)
    : tracked -> result A * tracked :=
  fun t =>
    let '(r, w) := cap (inner t) in
    (r, {| inner := w; open_now := open_now t; open_peak := open_peak t |}).

(** The session that answers as [session] does and keeps the books:
    [webdriver.Chrome] that returns opens the session it returns; [quit]
    that returns closes the session it was called on; a call that raises
    opens and closes nothing. *)
Definition tracking : SessionDriver tracked :=
  {| service_start := untracked (service_start session);
     service_stop := untracked (service_stop session);
     chrome := fun headless t =>
       let '(r, w) := chrome session headless (inner t) in
       match r with
       | inr d =>
         (r, {| inner := w; open_now := d :: open_now t;
                open_peak := Nat.max (open_peak t)
                                     (S (List.length (open_now t))) |})
       | inl _ =>
         (r, {| inner := w; open_now := open_now t;
                open_peak := open_peak t |})
       end;
     get := fun d url => untracked (get session d url);
     wait_until := fun d c timeout => untracked (wait_until session d c timeout);
     find_element := fun d b sel => untracked (find_element session d b sel);
     clear := fun el => untracked (clear session el);
     send_keys := fun el keys => untracked (send_keys session el keys);
     click := fun el => untracked (click session el);
     read_table := fun d => untracked (read_table session d);
     quit := fun d t =>
       let '(r, w) := quit session d (inner t) in
       (r, {| inner := w;
              open_now := if returned r
                          then remove Nat.eq_dec d (open_now t)
                          else open_now t;
              open_peak := open_peak t |});
     sleep := fun seconds => untracked (sleep session seconds) |}.

(** No session is open and none was. *)
Definition nothing_open (w : W) : tracked :=
  {| inner := w; open_now := []; open_peak := 0 |}.

End Derived.

(** [RuntimeError("Could not locate email/password inputs")] *)
Definition inputs_not_found : exn :=
  {| exc_type := RuntimeError;
     exc_str := "Could not locate email/password inputs" |}.

(** The look-ups [find_first] makes for the selectors [selectors]. *)
Definition find_calls (d : driver) (selectors : list (By * string))
    : list event :=
  map (fun s => EvFindElement d (fst s) (snd s)) selectors.

(** The largest number of sessions open at the same time during the calls
    [evs], starting with the sessions [open]. *)
Fixpoint peak_sessions (open : list driver) (evs : list event) : nat :=
  match evs with
  | [] => List.length open
  | EvChrome (Some d) :: r =>
    Nat.max (List.length open) (peak_sessions (d :: open) r)
  | EvQuit d true :: r =>
    Nat.max (List.length open) (peak_sessions (remove Nat.eq_dec d open) r)
  | _ :: r => peak_sessions open r
  end.

(** A computation on a session with book-keeping whose books agree with
    its calls. *)
Definition tracks (W A : Type) (m : M (tracked W) A) : Prop :=
  forall st, exists evs,
    calls (snd (m st)) = (calls st ++ evs)%list /\
    open_now (world (snd (m st))) = sessions_left (open_now (world st)) evs /\
    (open_peak (world (snd (m st))) <=
     Nat.max (open_peak (world st))
             (peak_sessions (open_now (world st)) evs))%nat.

(** The calls to [quit] in [evs] that raised. *)
Definition failed_quits (evs : list event) : list driver :=
  flat_map (fun ev => match ev with EvQuit d false => [d] | _ => [] end) evs.

(** Any call but a [quit] that raised. *)
Definition no_failed_quit (ev : event) : bool :=
  match ev with
  | EvQuit _ false => false
  | _ => true
  end.

(** The program state without the books. *)
Definition forget (W : Type) (st : state (tracked W)) : state W :=
  {| world := inner (world st); calls := calls st;
     var_driver := var_driver st; _latest := _latest st;
     published := published st |}.

(** [m'], on a session with book-keeping, does what [m] does on the
    session itself: same outcome, same calls, same state of the
    session. *)
Definition mirrors (W A : Type) (m' : M (tracked W) A) (m : M W A) : Prop :=
  forall st,
    fst (m' st) = fst (m (forget st)) /\
    forget (snd (m' st)) = snd (m (forget st)).

(** The calls one [scrape_once] can make: none; a service that does not
    start; a session that cannot be created, and the service stopped; or a
    session created, plain calls on it, and [quit]. *)
Definition cycle_calls (evs : list event) : Prop :=
  evs = [] \/
  evs = [EvServiceStart] \/
  evs = [EvServiceStart; EvChrome None; EvServiceStop] \/
  exists d plain ok,
    forallb is_plain_call plain = true /\
    evs = ([EvServiceStart; EvChrome (Some d)] ++ plain ++ [EvQuit d ok])%list.

(** A sleep of 30 seconds or more: the pause between two cycles. *)
Definition is_pause (ev : event) : bool :=
  match ev with
  | EvSleep seconds => (30 <=? seconds)%Z
  | _ => false
  end.

Definition not_pause (ev : event) : bool := negb (is_pause ev).

(** A login page without a password field. *)
Definition form_without_password (b : By) (sel : string) : result element :=
  if String.eqb sel "input[type='email']" then inr 1%nat
  else inl no_such_element.

Definition portal_without_password : script :=
  {| on_service_start := None;
     on_chrome := inr 7%nat;
     on_get := fun _ => None;
     on_wait_until := fun _ => None;
     on_find_element := form_without_password;
     on_read_table := inr [];
     on_quit := None |}.

(** The login page never navigates away: the wait for the URL times out. *)
Definition portal_staying_on_login (rows : list tr) : script :=
  {| on_service_start := None;
     on_chrome := inr 7%nat;
     on_get := fun _ => None;
     on_wait_until := fun c =>
       match c with
       | url_left_login =>
         Some {| exc_type := TimeoutException; exc_str := "Message: " |}
       | _ => None
       end;
     on_find_element := portal_form;
     on_read_table := inr rows;
     on_quit := None |}.

End Cycle.

(* ================================================================= *)
(** * The add-on options and the log endpoint *)

Module Service.
Import PyStr.
Local Open Scope string_scope.

(** ** [load_options] and the module constants [EMAIL] and [PASSWORD] *)

(** A value of the options document, given by what the module does with
    it: [bool(v)], for [v or ""], and [str(v)]. *)
Record pyobj : Type := { truth : bool; printed : pystr }.

(** A string as such a value. *)
Definition of_str (s : pystr) : pyobj :=
  {| truth := truthy s; printed := s |}.

(** What [json.loads] returned: a [dict], its items by key, or a value of
    another type. *)
Inductive document : Type :=
| Dict (items : list (pystr * pyobj))
| NotADict.

(** The file [/data/options.json]: [None] when it does not exist;
    otherwise the outcome of reading and parsing it. *)
Definition options_file : Type := option (Cycle.result document).

(** [load_options()] *)
Definition load_options (file : options_file) : list (pystr * pyobj) :=
  match file with
  | Some (inr data) =>
    match data with
    | Dict items => items            (* data if isinstance(data, dict) *)
    | NotADict => []                 (* else {} *)
    end
  | Some (inl _) => []               (* except Exception: return {} *)
  | None => []
  end.

(** [d.get(key, default)] *)
Fixpoint dict_get_default (key : pystr) (default : pyobj)
    (d : list (pystr * pyobj)) : pyobj :=
  match d with
  | [] => default
  | (k, v) :: r =>
    if list_eq_dec N.eq_dec key k then v else dict_get_default key default r
  end.

(** [a or b] *)
Definition py_or (a b : pyobj) : pyobj := if truth a then a else b.

(** [str(_opts.get(key, "") or "").strip()] *)
Definition option_text (key : pystr) (_opts : list (pystr * pyobj)) : pystr :=
  strip (printed (py_or (dict_get_default key (of_str []) _opts) (of_str []))).

(** The options the module resolves when it is loaded.  The conversion
    [int(... or 300)] of the scan interval is not modelled: its result is
    taken as given. *)
Definition resolve_options (file : options_file) (scan_interval : Z)
    : Cycle.options :=
  let _opts := load_options file in
  {| Cycle.EMAIL := option_text (utf8 "email") _opts;
     Cycle.PASSWORD := option_text (utf8 "password") _opts;
     Cycle.SCAN_INTERVAL := scan_interval |}.

(** ** [chromedriver_log] *)

Inductive log_value : Type :=
| LBool (b : bool)
| LLines (lines : list pystr).

(** [lines[-n:]] *)
Definition last_lines (n : nat) (lines : list pystr) : list pystr :=
  skipn (List.length lines - n) lines.

(** The handler of [/chromedriver_log], on the log file: [None] when it
    does not exist, otherwise the outcome of [read_text], the decoded
    text or an exception, which the handler lets through. *)
Definition chromedriver_log (file : option (Cycle.result pystr))
    : Cycle.result (list (string * log_value)) :=
  match file with
  | None => inr [ ("exists", LBool false) ]
  | Some (inl e) => inl e
  | Some (inr text) =>
    let lines := last_lines 200 (splitlines text) in
    inr [ ("exists", LBool true); ("tail", LLines lines) ]
  end.

End Service.

(* ================================================================= *)
(** * Facts about the string operations *)

Import PyStr PyFloat.

Unset Implicit Arguments.

Lemma lstrip_cases (s : pystr) :
  lstrip s = [] \/ exists c r, lstrip s = c :: r /\ isspace c = false.
Proof.
  induction s as [|c r IH]; simpl.
  - now left.
  - destruct (isspace c) eqn:E; [exact IH | right; eauto].
Qed.

Lemma rstrip_keeps_head (c : N) (r : pystr) :
  isspace c = false -> exists r', rstrip (c :: r) = c :: r'.
Proof.
  intros E. simpl. destruct (rstrip r); rewrite ?E; eauto.
Qed.

Lemma lstrip_strip (s : pystr) : lstrip (strip s) = strip s.
Proof.
  unfold strip. destruct (lstrip_cases s) as [E | (c & r & E & Hc)]; rewrite E.
  - reflexivity.
  - destruct (rstrip_keeps_head c r Hc) as [r' E']. rewrite E'.
    simpl. now rewrite Hc.
Qed.

Lemma span_digits_spec (s ds rest : pystr) :
  span_digits s = (ds, rest) -> s = ds ++ rest /\ forallb isdecimal ds = true.
Proof.
  revert ds rest. induction s as [|c r IH]; simpl; intros ds rest H.
  - inversion H. now split.
  - destruct (isdecimal c) eqn:E.
    + destruct (span_digits r) as [ds' rest'] eqn:E'.
      inversion H; subst. destruct (IH _ _ eq_refl) as [-> IH2].
      simpl. now rewrite E.
    + inversion H. now split.
Qed.

Lemma span_digits_app (p r : pystr) :
  forallb isdecimal p = true ->
  span_digits (p ++ r) = (p ++ fst (span_digits r), snd (span_digits r)).
Proof.
  induction p as [|c p IH]; simpl; intros H.
  - now destruct (span_digits r).
  - apply andb_true_iff in H as [Hc Hp]. rewrite Hc, (IH Hp). reflexivity.
Qed.

Lemma span_digits_all (p : pystr) :
  forallb isdecimal p = true -> span_digits p = (p, []).
Proof.
  intros H. pose proof (span_digits_app p [] H) as E.
  simpl in E. now rewrite !app_nil_r in E.
Qed.

Lemma span_digits_stop (c : N) (r : pystr) :
  isdecimal c = false -> span_digits (c :: r) = ([], c :: r).
Proof. intros E. simpl. now rewrite E. Qed.

Lemma sign_not_decimal (c : N) : is_sign c = true -> isdecimal c = false.
Proof.
  unfold is_sign. intros H. apply orb_true_iff in H as [H | H];
    apply N.eqb_eq in H; subst; reflexivity.
Qed.

Lemma decimal_not_sign (c : N) : isdecimal c = true -> is_sign c = false.
Proof.
  intros H. destruct (is_sign c) eqn:E; [|reflexivity].
  apply sign_not_decimal in E. congruence.
Qed.

Lemma full_stop_not_decimal : isdecimal full_stop = false.
Proof. reflexivity. Qed.

Lemma split_sign_digits (ds r : pystr) :
  ds <> [] -> forallb isdecimal ds = true ->
  split_sign (ds ++ r) = ([], ds ++ r).
Proof.
  destruct ds as [|d ds]; [congruence|]. simpl. intros _ H.
  apply andb_true_iff in H as [H _]. now rewrite (decimal_not_sign d H).
Qed.

Lemma split_sign_signed (sgn ds r : pystr) :
  sgn = [] \/ sgn = [plus_sign] \/ sgn = [minus_sign] ->
  ds <> [] -> forallb isdecimal ds = true ->
  split_sign (sgn ++ ds ++ r) = (sgn, ds ++ r).
Proof.
  intros [-> | [-> | ->]] Hne Hd; [exact (split_sign_digits ds r Hne Hd) | | ]; reflexivity.
Qed.

Lemma split_sign_spec (s sgn r : pystr) :
  split_sign s = (sgn, r) ->
  s = sgn ++ r /\ (sgn = [] \/ sgn = [plus_sign] \/ sgn = [minus_sign]).
Proof.
  unfold split_sign. destruct s as [|c s']; intros H.
  - inversion H. auto.
  - destruct (is_sign c) eqn:E; inversion H; subst; auto.
    split; [reflexivity|]. unfold is_sign in E.
    apply orb_true_iff in E as [E | E]; apply N.eqb_eq in E; subst; auto.
Qed.

(** What the pattern matches is a numeral at the front of the string. *)
Lemma match_number_numeral (s g : pystr) :
  match_number s = Some g ->
  Parser.numeral g /\ exists rest, lstrip s = g ++ rest.
Proof.
  unfold match_number.
  destruct (split_sign (lstrip s)) as [sgn s2] eqn:Es.
  apply split_sign_spec in Es as [Es Hsgn].
  destruct (span_digits s2) as [ds s3] eqn:Ed.
  apply span_digits_spec in Ed as [Ed Hds].
  destruct ds as [|d ds]; [discriminate|].
  assert (Hint : Parser.numeral (sgn ++ d :: ds) /\
                 exists rest, lstrip s = (sgn ++ d :: ds) ++ rest).
  { split; [constructor; auto; discriminate|].
    exists s3. rewrite Es, Ed, <- app_assoc. reflexivity. }
  destruct s3 as [|c r]; [intros H; inversion H; subst; exact Hint|].
  destruct (c =? full_stop)%N eqn:Ec;
    [|intros H; inversion H; subst; exact Hint].
  apply N.eqb_eq in Ec. subst c.
  destruct (span_digits r) as [fs r'] eqn:Ef.
  apply span_digits_spec in Ef as [Ef Hfs].
  destruct fs as [|f fs]; intros H; inversion H; subst; [exact Hint|].
  split.
  - apply (@Parser.numeral_frac sgn (d :: ds) (f :: fs)); auto; discriminate.
  - exists r'. rewrite Es. rewrite <- !app_assoc. simpl.
    rewrite <- app_assoc. reflexivity.
Qed.

(** Whenever the string starts with a numeral, the pattern matches, and
    what it matches is at least as long. *)
Lemma match_number_longest (s g' rest' : pystr) :
  Parser.numeral g' -> lstrip s = g' ++ rest' ->
  exists g, match_number s = Some g /\ (List.length g' <= List.length g)%nat.
Proof.
  intros Hn Hs. unfold match_number. rewrite Hs.
  destruct Hn as [sgn ds Hsgn Hne Hds | sgn ds fs Hsgn Hne Hds Hfne Hfs].
  - rewrite <- app_assoc, (split_sign_signed sgn ds rest' Hsgn Hne Hds).
    rewrite (span_digits_app ds rest' Hds).
    destruct (span_digits rest') as [q r2]. simpl fst. simpl snd.
    destruct ds as [|d ds]; [congruence|]. simpl app at 1.
    destruct r2 as [|c r];
      [|destruct (c =? full_stop)%N; [destruct (span_digits r) as [[|f fs] r3]|]];
      eexists; (split; [reflexivity|]);
      repeat rewrite length_app; simpl; repeat rewrite length_app; lia.
  - rewrite <- !app_assoc.
    rewrite (split_sign_signed sgn ds _ Hsgn Hne Hds).
    rewrite (span_digits_app ds _ Hds).
    simpl app at 2.
    rewrite (span_digits_stop full_stop _ full_stop_not_decimal).
    simpl fst. simpl snd. rewrite app_nil_r.
    destruct ds as [|d ds]; [congruence|].
    rewrite N.eqb_refl, (span_digits_app fs rest' Hfs).
    destruct (span_digits rest') as [q r3]. simpl fst. simpl snd.
    destruct fs as [|f fs]; [congruence|]. simpl app at 1.
    eexists; split; [reflexivity|].
    repeat (rewrite length_app; simpl). lia.
Qed.

Lemma decimal_not_minus (d : N) :
  isdecimal d = true -> (d =? minus_sign)%N = false.
Proof.
  intros H. destruct (d =? minus_sign)%N eqn:E; [|reflexivity].
  apply N.eqb_eq in E. subst. discriminate.
Qed.

Lemma decimal_not_plus (d : N) :
  isdecimal d = true -> (d =? plus_sign)%N = false.
Proof.
  intros H. destruct (d =? plus_sign)%N eqn:E; [|reflexivity].
  apply N.eqb_eq in E. subst. discriminate.
Qed.

Lemma float_sign_numeral (sgn ds r : pystr) :
  sgn = [] \/ sgn = [plus_sign] \/ sgn = [minus_sign] ->
  ds <> [] -> forallb isdecimal ds = true ->
  exists neg, float_sign (sgn ++ ds ++ r) = (neg, ds ++ r).
Proof.
  intros [-> | [-> | ->]] Hne Hds; [|now exists false|now exists true].
  destruct ds as [|d ds]; [congruence|].
  simpl in Hds. apply andb_true_iff in Hds as [Hd _].
  exists false. simpl.
  now rewrite (decimal_not_minus d Hd), (decimal_not_plus d Hd).
Qed.

Lemma float_unsigned_int (neg : bool) (ds : pystr) :
  ds <> [] -> forallb isdecimal ds = true ->
  float_unsigned neg ds = Some (of_decimal neg (digits_value ds) 0).
Proof.
  intros Hne Hds. unfold float_unsigned.
  rewrite (span_digits_all ds Hds), app_nil_r.
  destruct ds; [congruence|reflexivity].
Qed.

Lemma float_unsigned_frac (neg : bool) (ds fs : pystr) :
  ds <> [] -> forallb isdecimal ds = true ->
  forallb isdecimal fs = true ->
  float_unsigned neg (ds ++ full_stop :: fs) =
  Some (of_decimal neg (digits_value (ds ++ fs)) (List.length fs)).
Proof.
  intros Hne Hds Hfs. unfold float_unsigned.
  rewrite (span_digits_app ds _ Hds).
  rewrite (span_digits_stop full_stop _ full_stop_not_decimal).
  simpl fst. simpl snd. cbv beta iota.
  rewrite N.eqb_refl, (span_digits_all fs Hfs), app_nil_r.
  destruct ds; [congruence|reflexivity].
Qed.

(** [float] reads every numeral: on what the pattern matches it never
    raises [ValueError]. *)
Lemma py_float_numeral (g : pystr) :
  Parser.numeral g -> exists x, py_float g = Some x.
Proof.
  intros Hn. unfold py_float.
  destruct Hn as [sgn ds Hsgn Hne Hds | sgn ds fs Hsgn Hne Hds Hfne Hfs].
  - destruct (float_sign_numeral sgn ds [] Hsgn Hne Hds) as [neg E].
    rewrite app_nil_r in E. rewrite E.
    rewrite (float_unsigned_int neg ds Hne Hds). eauto.
  - destruct (float_sign_numeral sgn ds (full_stop :: fs) Hsgn Hne Hds)
      as [neg E].
    rewrite E, (float_unsigned_frac neg ds fs Hne Hds Hfs). eauto.
Qed.

(* ================================================================= *)
(** * The measurement cell parser: claims C2, C8 and C9 *)

Import Parser.

Lemma numeral_nonempty (g : pystr) : numeral g -> g <> [].
Proof.
  intros [sgn ds _ Hne _ | sgn ds fs _ Hne _ _ _] E;
    apply app_eq_nil in E as [_ E]; [|apply app_eq_nil in E as [E _]];
    congruence.
Qed.

(** [_extract_float] returns the float of the leading number of the
    trimmed line, and [None] exactly when there is no leading number. *)
Lemma extract_float_line_number (ln : pystr) :
  line_number ln (_extract_float ln).
Proof.
  unfold _extract_float. destruct ln as [|c ln'].
  - simpl. intros g (Hn & [rest E] & _).
    symmetry in E. apply app_eq_nil in E as [E _].
    exact (numeral_nonempty g Hn E).
  - cbn [truthy negb]. set (s := c :: ln').
    destruct (match_number (strip s)) as [g|] eqn:E.
    + destruct (match_number_numeral _ _ E) as [Hn [rest Hp]].
      rewrite lstrip_strip in Hp.
      destruct (py_float_numeral g Hn) as [x Hx]. rewrite Hx.
      exists g. split; [|exact Hx].
      split; [exact Hn|]. split; [now exists rest|].
      intros g' rest' Hn' Hp'.
      rewrite <- lstrip_strip in Hp'.
      destruct (match_number_longest _ _ _ Hn' Hp') as [g0 [E0 Hle]].
      rewrite E in E0. now inversion E0; subst.
    + intros g (Hn & [rest Hp] & _).
      rewrite <- lstrip_strip in Hp.
      destruct (match_number_longest _ _ _ Hn Hp) as [g0 [E0 _]].
      congruence.
Qed.

Lemma cell_lines_trimmed (cell_text : pystr) :
  cell_lines cell_text = filter truthy (map strip (splitlines cell_text)).
Proof.
  unfold cell_lines. induction (splitlines cell_text) as [|ln l IH]; simpl.
  - reflexivity.
  - destruct (truthy (strip ln)); simpl; now rewrite IH.
Qed.

Lemma classify_precedence (ln : pystr) :
  classify ln =
  if contains marker_dew (lower ln) then Some DewPoint
  else if contains marker_rh (lower ln) then Some Humidity
  else if contains marker_gm3_sup (lower ln) || contains marker_gm3 (lower ln)
    then Some AbsoluteHumidity
  else if contains marker_temp (lower ln) then Some Temperature
  else None.
Proof.
  unfold classify, precedence. cbn [find existsb fst snd].
  destruct (contains marker_dew (lower ln)); [reflexivity|].
  destruct (contains marker_rh (lower ln)); [reflexivity|].
  destruct (contains marker_gm3_sup (lower ln)); [reflexivity|].
  destruct (contains marker_gm3 (lower ln)); [reflexivity|].
  destruct (contains marker_temp (lower ln)); reflexivity.
Qed.

(** A turn of the loop assigns the number of the line to its field. *)
Lemma loop_body_assign (out : measurements) (ln : pystr) :
  loop_body out ln =
  match _extract_float ln, classify ln with
  | Some v, Some f => set f v out
  | _, _ => out
  end.
Proof.
  unfold loop_body. rewrite classify_precedence.
  destruct (_extract_float ln) as [v|]; [|reflexivity].
  destruct (contains marker_dew (lower ln)); [reflexivity|].
  destruct (contains marker_rh (lower ln)); [reflexivity|].
  destruct (contains marker_gm3_sup (lower ln) || contains marker_gm3 (lower ln));
    [reflexivity|].
  destruct (contains marker_temp (lower ln)); reflexivity.
Qed.

Lemma fold_left_ext (A B : Type) (f g : A -> B -> A) (l : list B) (a : A) :
  (forall x y, f x y = g x y) -> fold_left f l a = fold_left g l a.
Proof.
  intros H. revert a. induction l as [|y l IH]; simpl; intros a.
  - reflexivity.
  - now rewrite H, IH.
Qed.

(** C2: the lines of a cell are its non-empty trimmed lines; the number
    of a line is the float of its leading signed decimal numeral, and
    there is none when the line starts with no numeral; the field of a line
    is that of the first marker it contains, in the order dew point,
    relative humidity, absolute humidity, temperature, read in lower case;
    the parser assigns, line after line, the number of each line that has
    one to the field of the line; and the four-line cell of the
    specification parses to the binary64 numbers 21.5 (43 * 2^-1),
    45, 9.8 and 8.2 (the doubles nearest to 98/10 and 82/10), written
    out as mantissa and exponent; so are the numbers read from a signed
    numeral and from one followed by a second full stop. *)
Theorem C2_parse_cell :
  (forall cell_text,
     cell_lines cell_text = filter truthy (map strip (splitlines cell_text)))
  /\
  (forall ln, line_number ln (_extract_float ln))
  /\
  (forall ln,
     classify ln =
     if contains (utf8 "°c td") (lower ln) then Some DewPoint
     else if contains (utf8 "%rh") (lower ln) then Some Humidity
     else if contains (utf8 "g/m³") (lower ln)
             || contains (utf8 "g/m3") (lower ln) then Some AbsoluteHumidity
     else if contains (utf8 "°c") (lower ln) then Some Temperature
     else None)
  /\
  (forall cell_text,
     parse_measurements_cell cell_text =
     fold_left
       (fun out ln =>
          match _extract_float ln, classify ln with
          | Some v, Some f => set f v out
          | _, _ => out
          end)
       (cell_lines cell_text) out_init)
  /\
  parse_measurements_cell
    (unlines [utf8 "21.5 °C"; utf8 "45 %rH"; utf8 "9.8 °C Td";
              utf8 "8.2 g/m³"]) =
  {| temperature_c := Some (S754_finite false 6051711999279104 (-48));
     humidity_pct := Some (S754_finite false 6333186975989760 (-47));
     dew_point_c := Some (S754_finite false 5516909543528858 (-49));
     absolute_humidity_gm3 :=
       Some (S754_finite false 4616189618054758 (-49)) |}
  /\
  _extract_float (utf8 "-0.5 °C") =
    Some (S754_finite true 4503599627370496 (-53))
  /\
  _extract_float (utf8 "+3 °C") =
    Some (S754_finite false 6755399441055744 (-51))
  /\
  _extract_float (utf8 "1.5.7 °C") =
    Some (S754_finite false 6755399441055744 (-52))
  /\
  _extract_float (utf8 ".5 °C") = None.
Proof.
  split; [exact cell_lines_trimmed|].
  split; [exact extract_float_line_number|].
  split; [exact classify_precedence|].
  split.
  - intros cell_text. unfold parse_measurements_cell.
    apply fold_left_ext. exact loop_body_assign.
  - repeat split; vm_compute; reflexivity.
Qed.

Lemma get_set (f g : field) (v : float) (out : measurements) :
  get f (set g v out) = if field_eqb f g then Some v else get f out.
Proof. destruct f, g; reflexivity. Qed.

Lemma fold_last_value (A : Type) (l : list A) (a : option A) :
  fold_left (fun _ x => Some x) l a =
  match last_value l with Some v => Some v | None => a end.
Proof.
  unfold last_value. revert a. induction l as [|x l IH]; intros a; simpl.
  - reflexivity.
  - rewrite (IH (Some x)).
    now destruct (fold_left (fun _ y => Some y) l None).
Qed.

Lemma last_value_app (A : Type) (l1 l2 : list A) :
  last_value (l1 ++ l2) =
  match last_value l2 with Some v => Some v | None => last_value l1 end.
Proof.
  unfold last_value at 1. rewrite fold_left_app. apply fold_last_value.
Qed.

(** After the loop, a field holds the number of the last line that
    classifies to it, or what it held before when there is no such line. *)
Lemma loop_last_wins (f : field) (lines : list pystr) (out : measurements) :
  get f (fold_left loop_body lines out) =
  match last_value (numbers_of f lines) with
  | Some v => Some v
  | None => get f out
  end.
Proof.
  revert out. induction lines as [|ln rest IH]; intros out.
  - reflexivity.
  - cbn [fold_left]. rewrite IH. unfold numbers_of. cbn [flat_map].
    rewrite last_value_app. fold (numbers_of f rest).
    destruct (last_value (numbers_of f rest)) as [v|]; [reflexivity|].
    rewrite loop_body_assign.
    destruct (classify ln) as [g|], (_extract_float ln) as [v|];
      try reflexivity.
    rewrite get_set. now destruct (field_eqb f g).
Qed.

(** C8: each field of the result is the number of the last line that
    classifies to this field, whatever the lines of the other fields; the
    two temperature lines 20 and 22 carry the binary64 numbers 20
    (5 * 2^2) and 22 (11 * 2^1), written out as mantissa and exponent,
    and the result is 22, not 20. *)
Theorem C8_last_line_wins :
  (forall cell_text f,
     get f (parse_measurements_cell cell_text) =
     last_value (numbers_of f (cell_lines cell_text)))
  /\
  numbers_of Temperature (cell_lines (unlines [utf8 "20 °C"; utf8 "22 °C"])) =
  [ S754_finite false 5629499534213120 (-48);
    S754_finite false 6192449487634432 (-48) ]
  /\
  temperature_c
    (parse_measurements_cell (unlines [utf8 "20 °C"; utf8 "22 °C"])) =
  Some (S754_finite false 6192449487634432 (-48))
  /\
  temperature_c
    (parse_measurements_cell (unlines [utf8 "20 °C"; utf8 "22 °C"])) <>
  Some (S754_finite false 5629499534213120 (-48)).
Proof.
  split; [|split; [|split]].
  - intros cell_text f. unfold parse_measurements_cell.
    rewrite loop_last_wins.
    destruct (last_value (numbers_of f (cell_lines cell_text)));
      [reflexivity|now destruct f].
  - vm_compute. reflexivity.
  - vm_compute. reflexivity.
  - vm_compute. discriminate.
Qed.

Lemma loop_body_no_number (out : measurements) (ln : pystr) :
  _extract_float ln = None -> loop_body out ln = out.
Proof. intros H. unfold loop_body. now rewrite H. Qed.

Lemma loop_no_number (lines : list pystr) (out : measurements) :
  no_number lines = true -> fold_left loop_body lines out = out.
Proof.
  revert out. induction lines as [|ln rest IH]; intros out H.
  - reflexivity.
  - unfold no_number in H. cbn [forallb] in H.
    apply andb_true_iff in H as [H1 H2]. cbn [fold_left].
    destruct (_extract_float ln) eqn:E; [discriminate|].
    rewrite (loop_body_no_number out ln E). now apply IH.
Qed.

(** C9: the empty cell gives four [None]; a line without a number leaves
    the result as it is, so a cell none of whose lines carries a number
    gives four [None] too, as does the cell with the lines "n/a" and "--".
    The parser is a total function: no input makes it raise. *)
Theorem C9_lines_without_number :
  parse_measurements_cell [] = out_init
  /\
  parse_measurements_cell (unlines [utf8 "n/a"; utf8 "--"]) = out_init
  /\
  (forall out ln, _extract_float ln = None -> loop_body out ln = out)
  /\
  (forall cell_text,
     no_number (cell_lines cell_text) = true ->
     parse_measurements_cell cell_text = out_init).
Proof.
  split; [reflexivity|]. split; [vm_compute; reflexivity|].
  split; [exact loop_body_no_number|].
  intros cell_text H. now apply loop_no_number.
Qed.

Lemma C9_lines_without_number_witness :
  _extract_float (utf8 "n/a") = None /\
  loop_body out_init (utf8 "n/a") = out_init /\
  no_number (cell_lines (unlines [utf8 "n/a"; utf8 "--"])) = true /\
  parse_measurements_cell (unlines [utf8 "n/a"; utf8 "--"]) = out_init.
Proof.
  split; [reflexivity|].
  split;
    [apply (proj1 (proj2 (proj2 C9_lines_without_number))); reflexivity|].
  split; [reflexivity|].
  apply (proj2 (proj2 (proj2 C9_lines_without_number))); reflexivity.
Defined.

(* ================================================================= *)
(** * The rows of the table: claims C3 and C4 *)

Import Extractor.

(** The loop appends one record for each data row, in the order of the
    rows. *)
Lemma row_loop_filter (trs : list tr) (results : list point) :
  fold_left row_step trs results =
  results ++ map (fun r => point_of (tr_tds r)) (filter is_data_row trs).
Proof.
  revert results. induction trs as [|r trs IH]; intros results; cbn [fold_left].
  - cbn. now rewrite app_nil_r.
  - rewrite IH. unfold row_step. cbn [filter]. unfold is_data_row.
    destruct (is_detail_row r); [reflexivity|].
    destruct (is_short_row r); [reflexivity|].
    cbn. now rewrite <- app_assoc.
Qed.

Lemma parse_rows_filter (trs : list tr) :
  parse_rows trs = map (fun r => point_of (tr_tds r)) (filter is_data_row trs).
Proof. unfold parse_rows. now rewrite row_loop_filter. Qed.

Lemma filter_all (A : Type) (p : A -> bool) (l : list A) :
  forallb p l = true -> filter p l = l.
Proof.
  induction l as [|x l IH]; cbn; intros H; [reflexivity|].
  apply andb_true_iff in H as [Hx Hl]. now rewrite Hx, IH.
Qed.

(** C3: a row whose class contains "row-details" yields no record,
    whatever its cells; a row with fewer than 7 cells yields none; and a
    table of rows that are neither yields one record per row, in the order
    of the rows, none dropped, none moved, none merged. *)
Theorem C3_rows_to_records :
  (forall before r after,
     contains (utf8 "row-details") (or_empty (tr_class r)) = true ->
     parse_rows (before ++ r :: after) = parse_rows (before ++ after))
  /\
  (forall before r after,
     (List.length (tr_tds r) < 7)%nat ->
     parse_rows (before ++ r :: after) = parse_rows (before ++ after))
  /\
  (forall trs,
     forallb is_data_row trs = true ->
     parse_rows trs = map (fun r => point_of (tr_tds r)) trs /\
     List.length (parse_rows trs) = List.length trs).
Proof.
  repeat split.
  - intros before r after H. rewrite !parse_rows_filter, !filter_app.
    cbn [filter]. unfold is_data_row, is_detail_row.
    change row_details with (utf8 "row-details"). now rewrite H.
  - intros before r after H. rewrite !parse_rows_filter, !filter_app.
    cbn [filter]. unfold is_data_row, is_short_row.
    apply Nat.ltb_lt in H. rewrite H.
    now rewrite andb_false_r.
  - rewrite parse_rows_filter, (filter_all _ _ _ H). reflexivity.
  - rewrite parse_rows_filter, (filter_all _ _ _ H). apply length_map.
Qed.

Lemma C3_rows_to_records_witness :
  parse_rows ([Cycle.data_row "Cellar" "House" "12.5 °C" "2024-01-01" "77"]
              ++ Cycle.detail_row :: [])
  = parse_rows ([Cycle.data_row "Cellar" "House" "12.5 °C" "2024-01-01" "77"]
                ++ [])
  /\
  parse_rows ([] ++ Cycle.short_row
                 :: [Cycle.data_row "Attic" "House" "45 %rH" "2024-01-01" "78"])
  = parse_rows ([] ++ [Cycle.data_row "Attic" "House" "45 %rH" "2024-01-01" "78"])
  /\
  List.length
    (parse_rows [Cycle.data_row "Cellar" "House" "12.5 °C" "2024-01-01" "77";
                 Cycle.data_row "Attic" "House" "45 %rH" "2024-01-01" "78"])
  = 2%nat.
Proof.
  split; [|split].
  - apply (proj1 C3_rows_to_records). reflexivity.
  - apply (proj1 (proj2 C3_rows_to_records)). simpl. lia.
  - apply (proj2 (proj2 C3_rows_to_records)). reflexivity.
Defined.

(** C4, on the code: with a link in the group cell, the group is the
    trimmed text of the link and is never [None]; a link without text gives
    the empty string, where the same cell without the link gives [None]. *)
Theorem C4_group_of_empty_link :
  map group (parse_rows [Cycle.empty_link_row]) = [Some []]
  /\
  map group (parse_rows [Cycle.empty_group_row]) = [None].
Proof. split; vm_compute; reflexivity. Qed.

(* ================================================================= *)
(** * The scrape cycle: claims C1, C5, C6, C7 and C10 *)

Import Cycle.

Section CycleFacts.

Variable W : Type.
Variable session : SessionDriver W.
Variable opts : options.

Lemma after_refl (st : state W) : after st [] st.
Proof. unfold after. now rewrite app_nil_r. Qed.

Lemma after_trans (st st1 st2 : state W) (evs1 evs2 : list event) :
  after st evs1 st1 -> after st1 evs2 st2 -> after st (evs1 ++ evs2) st2.
Proof.
  intros (C1 & L1 & P1) (C2 & L2 & P2). unfold after.
  rewrite C2, C1, L2, L1, P2, P1, app_assoc. auto.
Qed.

Lemma quiet_ret (A : Type) (a : A) : quiet (ret (W := W) a).
Proof. intros st. exists []. cbn. auto using after_refl. Qed.

Lemma quiet_raise (A : Type) (e : exn) : quiet (raise (W := W) A e).
Proof. intros st. exists []. cbn. auto using after_refl. Qed.

Lemma quiet_perform (A : Type) (ev : event) (cap : W -> result A * W) :
  is_plain_call ev = true -> quiet (perform ev cap).
Proof.
  intros H st. exists [ev]. unfold perform, perform_with.
  destruct (cap (world st)) as [r w]. cbn. rewrite H.
  unfold after. cbn. auto.
Qed.

Lemma quiet_bind (A B : Type) (m : M W A) (k : A -> M W B) :
  quiet m -> (forall a, quiet (k a)) -> quiet (bind m k).
Proof.
  intros Hm Hk st. unfold bind. specialize (Hm st).
  destruct (m st) as [[e|a] st1]; cbn in *; [exact Hm|].
  destruct Hm as (evs1 & A1 & F1 & D1).
  destruct (Hk a st1) as (evs2 & A2 & F2 & D2).
  exists (evs1 ++ evs2). rewrite forallb_app, F1, F2, D2, D1.
  eauto using after_trans.
Qed.

Lemma quiet_try_except (A : Type) (body : M W A) (classes : exn -> bool)
    (handler : exn -> M W A) :
  quiet body -> (forall e, quiet (handler e)) ->
  quiet (try_except body classes handler).
Proof.
  intros Hm Hk st. unfold try_except. specialize (Hm st).
  destruct (body st) as [[e|a] st1]; cbn in *; [|exact Hm].
  destruct (classes e); [|exact Hm].
  destruct Hm as (evs1 & A1 & F1 & D1).
  destruct (Hk e st1) as (evs2 & A2 & F2 & D2).
  exists (evs1 ++ evs2). rewrite forallb_app, F1, F2, D2, D1.
  eauto using after_trans.
Qed.

Create HintDb quiet.
Hint Resolve quiet_ret quiet_raise quiet_perform : quiet.

Ltac quiet_step :=
  match goal with
  | |- quiet (bind _ _) => apply quiet_bind; [|intro]
  | |- quiet (try_except _ _ _) => apply quiet_try_except; [|intro]
  | |- quiet (match ?x with _ => _ end) => destruct x
  | |- quiet _ => solve [auto with quiet]
  end.

Lemma quiet_find_first (d : driver) (selectors : list (By * string)) :
  quiet (find_first session d selectors).
Proof.
  induction selectors as [|[b sel] rest IH]; cbn [find_first].
  - auto with quiet.
  - repeat quiet_step.
Qed.

Hint Resolve quiet_find_first : quiet.

Lemma quiet_login (d : driver) (email password : pystr) (timeout : Z) :
  quiet (login session d email password timeout).
Proof. unfold login. repeat quiet_step. Qed.

Lemma quiet_parse_measuring_points (d : driver) :
  quiet (parse_measuring_points session d).
Proof. unfold parse_measuring_points. repeat quiet_step. Qed.

Lemma quiet_time_sleep (seconds : Z) : quiet (time_sleep session seconds).
Proof. unfold time_sleep. auto with quiet. Qed.

Hint Resolve quiet_login quiet_parse_measuring_points quiet_time_sleep : quiet.

Lemma bind_inr (A B : Type) (m : M W A) (k : A -> M W B)
    (st st' : state W) (b : B) :
  bind m k st = (inr b, st') ->
  exists a st1, m st = (inr a, st1) /\ k a st1 = (inr b, st').
Proof.
  unfold bind. destruct (m st) as [[e|a] st1]; [discriminate|]. eauto.
Qed.

Lemma quiet_scrape_page (d : driver) : quiet (scrape_page session opts d).
Proof. unfold scrape_page. repeat quiet_step. Qed.

(** A page scraped without an exception gives an "ok" snapshot. *)
Lemma scrape_page_result (d : driver) (st st' : state W) (x : pydict) :
  scrape_page session opts d st = (inr x, st') ->
  exists rows, x = ok_snapshot rows.
Proof.
  unfold scrape_page. intros H.
  repeat (apply bind_inr in H; destruct H as (? & ? & _ & H)).
  unfold ret in H. inversion H. eauto.
Qed.

(** [open_browser] either returns a new session, after starting the
    service and creating the session, or raises after plain calls only. *)
Lemma open_browser_spec (headless : bool) (st : state W) :
  var_driver (snd (open_browser session headless st)) = var_driver st /\
  match fst (open_browser session headless st) with
  | inr d =>
    after st [EvServiceStart; EvChrome (Some d)]
          (snd (open_browser session headless st))
  | inl _ =>
    exists evs, after st evs (snd (open_browser session headless st)) /\
                (evs = [EvServiceStart] \/
                 evs = [EvServiceStart; EvChrome None; EvServiceStop])
  end.
Proof.
  unfold open_browser, bind, try_except, new_chrome, perform, perform_with,
    raise, ret.
  destruct (service_start session (world st)) as [[e|[]] w1]; cbn.
  - split; [reflexivity|]. exists [EvServiceStart]. unfold after. cbn. auto.
  - destruct (chrome session headless w1) as [[e|d] w2]; cbn.
    + destruct (service_stop session w2) as [[e'|[]] w3]; cbn;
        (split; [reflexivity|]);
        exists [EvServiceStart; EvChrome None; EvServiceStop];
        unfold after; cbn; rewrite <- !app_assoc; auto.
    + split; [reflexivity|]. unfold after. cbn. rewrite <- !app_assoc. auto.
Qed.

(** The [finally] clause never raises; it calls [quit] on the session
    bound to [driver], leaving the state [quit] leaves, and does nothing
    when none is bound. *)
Lemma release_driver_spec (st : state W) :
  fst (release_driver session st) = inr tt /\
  match var_driver st with
  | Some d =>
    after st [EvQuit d (returned (fst (quit session d (world st))))]
          (snd (release_driver session st)) /\
    world (snd (release_driver session st)) = snd (quit session d (world st))
  | None => snd (release_driver session st) = st
  end.
Proof.
  unfold release_driver, try_except, bind, get_var_driver, perform,
    perform_with, ret, is_Exception.
  destruct (var_driver st) as [d|]; cbn; [|auto].
  destruct (quit session d (world st)) as [[e|[]] w]; cbn;
    unfold after; cbn; auto.
Qed.

(** The two ways the body of the [try] statement can go: no session was
    created and it raised, or a session was created, bound to [driver],
    and only plain calls followed. *)
Lemma scrape_attempt_spec (st : state W) :
  (exists e evs,
     fst (scrape_attempt session opts st) = inl e /\
     after st evs (snd (scrape_attempt session opts st)) /\
     (evs = [EvServiceStart] \/
      evs = [EvServiceStart; EvChrome None; EvServiceStop]) /\
     var_driver (snd (scrape_attempt session opts st)) = var_driver st)
  \/
  (exists d evs,
     after st ([EvServiceStart; EvChrome (Some d)] ++ evs)
           (snd (scrape_attempt session opts st)) /\
     forallb is_plain_call evs = true /\
     var_driver (snd (scrape_attempt session opts st)) = Some d /\
     match fst (scrape_attempt session opts st) with
     | inr x => exists rows, x = ok_snapshot rows
     | inl _ => True
     end).
Proof.
  destruct (scrape_attempt session opts st) as [r st'] eqn:E. cbn [fst snd].
  unfold scrape_attempt in E. unfold bind at 1 in E.
  destruct (open_browser_spec true st) as [Hd Ho].
  destruct (open_browser session true st) as [[e|d] st1]; cbn in Hd, Ho.
  - left. inversion E; subst. destruct Ho as (evs & Ha & He).
    exists e, evs. auto.
  - right. unfold bind at 1, set_var_driver at 1 in E.
    set (st2 := {| world := world st1; calls := calls st1;
                   var_driver := Some d; _latest := _latest st1;
                   published := published st1 |}) in E.
    destruct (quiet_scrape_page d st2) as (evs & Ha & Hp & Hv).
    rewrite E in Ha, Hv. cbn [snd] in Ha, Hv.
    exists d, evs. split; [|split; [exact Hp|split; [exact Hv|]]].
    + apply after_trans with (st1 := st2); [|exact Ha].
      destruct Ho as (C & L & P). unfold after. cbn. auto.
    + destruct r as [e|x]; [exact I|].
      exact (scrape_page_result d st2 st' x E).
Qed.

Lemma sessions_left_plain (evs more : list event) (open : list driver) :
  forallb is_plain_call evs = true ->
  sessions_left open (evs ++ more) = sessions_left open more.
Proof.
  induction evs as [|ev evs IH]; cbn [forallb app]; intros H; [reflexivity|].
  apply andb_true_iff in H as [H1 H2].
  destruct ev as [| |[d|]| | | | | | | | |]; cbn in H1 |- *;
    try discriminate; now apply IH.
Qed.



(** With credentials, [scrape_once] is the body of its [try] statement run
    with [driver] unbound, its recognized exceptions turned into "error"
    snapshots, followed by the [finally] clause. *)
Lemma scrape_once_unfold (st : state W) :
  negb (truthy (EMAIL opts)) || negb (truthy (PASSWORD opts)) = false ->
  scrape_once session opts st =
  let st0 := snd (set_var_driver None st) in
  (match fst (scrape_attempt session opts st0) with
   | inr x => inr x
   | inl e => if recognized e then inr (error_snapshot e) else inl e
   end,
   snd (release_driver session (snd (scrape_attempt session opts st0)))).
Proof.
  intros Hc. unfold scrape_once. rewrite Hc. unfold bind at 1.
  cbn [set_var_driver snd]. unfold try_finally, try_except.
  match goal with
  | |- context [scrape_attempt session opts ?s] =>
    destruct (scrape_attempt session opts s) as [[e|x] st1]
  end; cbn [fst snd].
  - destruct (release_driver_spec st1) as [Hr _].
    destruct (recognized e); cbn [ret];
      destruct (release_driver session st1) as [[e'|u] st2];
      cbn in Hr |- *; first [discriminate | reflexivity].
  - destruct (release_driver_spec st1) as [Hr _].
    destruct (release_driver session st1) as [[e'|u] st2];
      cbn in Hr |- *; first [discriminate | reflexivity].
Qed.

(** What one call of [scrape_once] does, whatever the session answers:
    its calls have one of four forms, the last of them with [quit] as the
    last call, answered by the session in the state the body of the [try]
    statement left. *)
Lemma scrape_once_spec (st : state W) :
  exists evs,
    after st evs (snd (scrape_once session opts st)) /\
    (evs = [] \/
     evs = [EvServiceStart] \/
     evs = [EvServiceStart; EvChrome None; EvServiceStop] \/
     exists d plain answer,
       forallb is_plain_call plain = true /\
       answer = quit session d
                  (world (snd (scrape_attempt session opts
                                 (snd (set_var_driver None st))))) /\
       evs = [EvServiceStart; EvChrome (Some d)] ++ plain ++
             [EvQuit d (returned (fst answer))] /\
       world (snd (scrape_once session opts st)) = snd answer) /\
    match fst (scrape_once session opts st) with
    | inr x => scrape_result x
    | inl e => recognized e = false
    end.
Proof.
  unfold scrape_result.
  destruct (negb (truthy (EMAIL opts)) || negb (truthy (PASSWORD opts)))
    eqn:Hc.
  - unfold scrape_once. rewrite Hc. exists []. cbn.
    split; [apply after_refl|]. split; [now left|]. now left.
  - rewrite (scrape_once_unfold st Hc). cbn [fst snd set_var_driver].
    set (st0 := {| world := world st; calls := calls st; var_driver := None;
                   _latest := _latest st; published := published st |}).
    assert (H0 : after st [] st0) by (unfold after; cbn; now rewrite app_nil_r).
    destruct (scrape_attempt_spec st0)
      as [(e & evs & Hr & Ha & He & Hv) | (d & evs & Ha & Hp & Hv & Hr)].
    + destruct (release_driver_spec (snd (scrape_attempt session opts st0)))
        as [_ Hq].
      rewrite Hv in Hq. cbn in Hq. rewrite Hq, Hr.
      exists evs. split; [exact (after_trans _ _ _ _ _ H0 Ha)|].
      split; [destruct He as [-> | ->]; auto|].
      destruct (recognized e) eqn:Hrec; eauto.
    + destruct (release_driver_spec (snd (scrape_attempt session opts st0)))
        as [_ Hq].
      rewrite Hv in Hq. destruct Hq as [Hq Hw].
      eexists. split;
        [exact (after_trans _ _ _ _ _ H0 (after_trans _ _ _ _ _ Ha Hq))|].
      split.
      { right; right; right. eexists d, evs, _.
        split; [exact Hp|]. split; [reflexivity|].
        split; [now rewrite <- app_assoc|exact Hw]. }
      destruct (fst (scrape_attempt session opts st0)) as [e|x].
      * destruct (recognized e) eqn:Hrec; eauto.
      * auto.
Qed.

(** [scrape_once] leaves [_latest] and what was published alone. *)
Lemma scrape_once_frame (st : state W) :
  published (snd (scrape_once session opts st)) = published st /\
  _latest (snd (scrape_once session opts st)) = _latest st.
Proof.
  destruct (scrape_once_spec st) as (evs & (_ & HL & HP) & _). auto.
Qed.

Lemma last_cons (A : Type) (x d : A) (l : list A) :
  last (x :: l) d = last l x.
Proof.
  revert x d. induction l as [|y l IH]; intros x d; [reflexivity|].
  change (last (x :: y :: l) d) with (last (y :: l) d).
  now rewrite !IH.
Qed.

(** One turn of the scheduler: an exception of [scrape_once] ends the
    loop there; otherwise the dictionary returned is assigned to
    [_latest], the pause is called, and an exception of the pause ends
    the loop. *)
Lemma background_loop_turn (n : nat) (st : state W) :
  background_loop session opts (S n) st =
  match scrape_once session opts st with
  | (inl e, st1) => (inl e, st1)
  | (inr x, st1) =>
    match sleep session (Z.max 30 (SCAN_INTERVAL opts)) (world st1) with
    | (inl e, w) =>
      (inl e,
       {| world := w;
          calls := calls st1 ++ [EvSleep (Z.max 30 (SCAN_INTERVAL opts))];
          var_driver := var_driver st1;
          _latest := x;
          published := published st1 ++ [x] |})
    | (inr _, w) =>
      background_loop session opts n
        {| world := w;
           calls := calls st1 ++ [EvSleep (Z.max 30 (SCAN_INTERVAL opts))];
           var_driver := var_driver st1;
           _latest := x;
           published := published st1 ++ [x] |}
    end
  end.
Proof.
  cbn [background_loop]. unfold bind at 1.
  destruct (scrape_once session opts st) as [[e|x] st1]; [reflexivity|].
  unfold bind at 1, set_latest at 1. unfold bind at 1.
  unfold time_sleep, perform, perform_with.
  cbn [world calls var_driver _latest published].
  destruct (sleep session (Z.max 30 (SCAN_INTERVAL opts)) (world st1))
    as [[e|u] w]; reflexivity.
Qed.

(** The first [turns] turns of the scheduler: every dictionary published
    is one [scrape_once] returned, [_latest] is the last of them, and a
    run that did not end on an exception published once per turn. *)
Lemma background_loop_spec (turns : nat) (st : state W) :
  exists new,
    published (snd (background_loop session opts turns st)) =
      published st ++ new /\
    Forall scrape_result new /\
    _latest (snd (background_loop session opts turns st)) =
      last new (_latest st) /\
    (List.length new <= turns)%nat /\
    match fst (background_loop session opts turns st) with
    | inr _ => List.length new = turns
    | inl e => True
    end.
Proof.
  revert st. induction turns as [|n IH]; intros st.
  - exists []. cbn. rewrite app_nil_r. auto.
  - rewrite background_loop_turn.
    destruct (scrape_once_spec st) as (evs & (_ & HL & HP) & _ & Hr).
    destruct (scrape_once session opts st) as [[e|x] st1]; cbn [fst snd] in *.
    + exists []. cbn. rewrite app_nil_r. repeat split; auto. lia.
    + destruct (sleep session (Z.max 30 (SCAN_INTERVAL opts)) (world st1))
        as [[e|u] w].
      * exists [x]. cbn. rewrite HP. repeat split; auto. lia.
      * match goal with
        | |- context [background_loop session opts n ?s] =>
          destruct (IH s) as (new & Hpub & Hall & Hlast & Hlen & Hres);
          revert Hpub Hlast Hres;
          destruct (background_loop session opts n s) as [r st'];
          cbn [fst snd published _latest]; intros Hpub Hlast Hres
        end.
        exists (x :: new). rewrite Hpub, Hlast, HP, <- app_assoc, last_cons.
        repeat split; auto; cbn [List.length]; [lia|].
        destruct r; [exact I|now f_equal].
Qed.

Lemma scrape_result_invariant (x : pydict) :
  scrape_result x -> snapshot_invariant x.
Proof.
  intros [-> | [[rows ->] | (e & _ & ->)]]; split; cbn; intros H;
    try discriminate; eauto.
Qed.

Lemma scrape_result_status (x : pydict) : scrape_result x -> ok_or_error x.
Proof.
  intros [-> | [[rows ->] | (e & _ & ->)]]; unfold ok_or_error; cbn; auto.
Qed.

End CycleFacts.

Lemma Forall_last (A : Type) (P : A -> Prop) (l : list A) (d : A) :
  Forall P l -> P d -> P (last l d).
Proof.
  intros HF. revert d. induction HF as [|x l Hx Hl IH]; intros d Hd;
    [exact Hd|].
  rewrite last_cons. now apply IH.
Qed.

(** C1: the initial snapshot, every dictionary [scrape_once] returns and
    every value the scheduler assigns to [_latest] satisfy the invariant:
    with status "ok" there is no "error" key and "count" is the length of
    "measuring_points"; with status "error", "measuring_points" is empty. *)
Theorem C1_snapshot_invariant :
  forall (W : Type) (session : SessionDriver W) (opts : options),
    snapshot_invariant _latest_init
    /\
    (forall st,
       match fst (scrape_once session opts st) with
       | inr x => snapshot_invariant x
       | inl _ => True
       end)
    /\
    (forall w turns,
       Forall snapshot_invariant
         (published (snd (background_loop session opts turns (init_state w))))
       /\
       snapshot_invariant
         (_latest (snd (background_loop session opts turns (init_state w))))).
Proof.
  intros W session opts.
  assert (H0 : snapshot_invariant _latest_init)
    by (split; cbn; intros H; discriminate).
  split; [exact H0|]. split.
  - intros st.
    destruct (scrape_once_spec W session opts st) as (evs & _ & _ & Hr).
    destruct (fst (scrape_once session opts st)); [exact I|].
    now apply scrape_result_invariant.
  - intros w turns.
    destruct (background_loop_spec W session opts turns (init_state w))
      as (new & Hpub & Hall & Hlast & _).
    rewrite Hpub, Hlast. cbn [published _latest init_state app].
    assert (Hinv : Forall snapshot_invariant new).
    { eapply Forall_impl; [|exact Hall]. exact scrape_result_invariant. }
    split; [exact Hinv|]. now apply Forall_last.
Qed.

(** C5: when the email or the password is empty, [scrape_once] returns
    at once the "error" dictionary whose message starts with "Missing",
    with count 0 and no measuring points, and leaves the state as it found
    it: no call reached the session layer. *)
Theorem C5_missing_credentials :
  forall (W : Type) (session : SessionDriver W) (opts : options)
         (st : state W),
    truthy (EMAIL opts) = false \/ truthy (PASSWORD opts) = false ->
    scrape_once session opts st = (inr missing_credentials, st)
    /\
    calls (snd (scrape_once session opts st)) = calls st
    /\
    dict_get "status" missing_credentials = Some (VStr "error")
    /\
    (exists msg, dict_get "error" missing_credentials = Some (VStr msg) /\
                 str_contains "Missing" msg = true)
    /\
    dict_get "count" missing_credentials = Some (VInt 0)
    /\
    dict_get "measuring_points" missing_credentials = Some (VList []).
Proof.
  intros W session opts st H.
  assert (E : scrape_once session opts st = (inr missing_credentials, st)).
  { unfold scrape_once. destruct H as [H | H]; rewrite H; cbn;
      [reflexivity|]. now rewrite orb_true_r. }
  split; [exact E|]. split; [now rewrite E|].
  split; [reflexivity|]. split; [|split; reflexivity].
  eexists. split; reflexivity.
Qed.

Lemma C5_missing_credentials_witness :
  (truthy (EMAIL no_password) = false \/ truthy (PASSWORD no_password) = false)
  /\
  scrape_once (scripted portal_up) no_password (init_state 0%nat) =
  (inr missing_credentials, init_state 0%nat).
Proof.
  split; [right; reflexivity|].
  apply (C5_missing_credentials nat (scripted portal_up) no_password
           (init_state 0%nat)).
  right. reflexivity.
Defined.




(** C6, the claim as it stands fails.  Chromedriver dies while the data
    page loads, the HTTP client raises [MaxRetryError], which the [except]
    clause does not name: [scrape_once] returns no dictionary but raises,
    and the scheduler loop ends with that exception without having
    published anything.  And with a scan interval of 10^19 seconds the
    portal is scraped and the snapshot published, but the pause raises
    [OverflowError] and the loop ends after this first publish. *)
Lemma C6_counterexample :
  ~ (exists x,
       fst (scrape_once (scripted driver_crash) some_options
              (init_state 0%nat)) = inr x /\ is_error_snapshot x)
  /\
  fst (scrape_once (scripted driver_crash) some_options (init_state 0%nat))
  = inl max_retry_error
  /\
  fst (background_loop (scripted driver_crash) some_options 3
         (init_state 0%nat)) = inl max_retry_error
  /\
  published (snd (background_loop (scripted driver_crash) some_options 3
                    (init_state 0%nat))) = []
  /\
  fst (background_loop (scripted portal_up) huge_interval 3
         (init_state 0%nat)) = inl overflow_error
  /\
  List.length
    (published (snd (background_loop (scripted portal_up) huge_interval 3
                       (init_state 0%nat)))) = 1%nat.
Proof.
  split; [|repeat split]; try (vm_compute; reflexivity).
  intros (x & H & _). vm_compute in H. discriminate.
Qed.

(** C6, amended: the exceptions [scrape_once] recognizes are those of
    class [RuntimeError] or [WebDriverException] (with its subclasses
    [TimeoutException] and [NoSuchElementException]).  When the body of
    the [try] statement raises [e], [scrape_once] returns the "error"
    snapshot with message [str(e)], count 0 and no measuring points if [e]
    is recognized, and raises [e] itself otherwise; so an exception that
    leaves [scrape_once] is never a recognized one, and [scrape_once]
    assigns nothing to [_latest].  A turn of the scheduler loop whose
    [scrape_once] raises ends the loop with that exception, nothing
    published; a turn whose [scrape_once] returns [x] publishes [x] -- it
    becomes [_latest] -- and calls the pause of [max(30, SCAN_INTERVAL)]
    seconds; if the pause raises the loop ends with its exception, and if
    it returns the loop goes on with the next turn.  No exception leaves
    the scheduler thread: whatever ended the loop, a [/data] request is
    answered with [_latest], the last snapshot published. *)
Theorem C6_recognized_failures :
  forall (W : Type) (session : SessionDriver W) (opts : options),
    (forall e,
       recognized e =
       match exc_type e with OtherException _ => false | _ => true end)
    /\
    (forall e,
       is_error_snapshot (error_snapshot e) /\
       dict_get "error" (error_snapshot e) = Some (VStr (exc_str e)))
    /\
    (forall st e,
       truthy (EMAIL opts) = true -> truthy (PASSWORD opts) = true ->
       fst (scrape_attempt session opts (snd (set_var_driver None st)))
       = inl e ->
       fst (scrape_once session opts st) =
       if recognized e then inr (error_snapshot e) else inl e)
    /\
    (forall st,
       match fst (scrape_once session opts st) with
       | inr x => scrape_result x
       | inl e => recognized e = false
       end
       /\
       published (snd (scrape_once session opts st)) = published st
       /\
       _latest (snd (scrape_once session opts st)) = _latest st)
    /\
    (forall turns st,
       background_loop session opts (S turns) st =
       match scrape_once session opts st with
       | (inl e, st1) => (inl e, st1)
       | (inr x, st1) =>
         match sleep session (Z.max 30 (SCAN_INTERVAL opts)) (world st1) with
         | (inl e, w) =>
           (inl e,
            {| world := w;
               calls := calls st1 ++ [EvSleep (Z.max 30 (SCAN_INTERVAL opts))];
               var_driver := var_driver st1;
               _latest := x;
               published := published st1 ++ [x] |})
         | (inr _, w) =>
           background_loop session opts turns
             {| world := w;
                calls := calls st1 ++ [EvSleep (Z.max 30 (SCAN_INTERVAL opts))];
                var_driver := var_driver st1;
                _latest := x;
                published := published st1 ++ [x] |}
         end
       end)
    /\
    (forall turns st,
       exists new,
         published (snd (background_loop session opts turns st)) =
           published st ++ new
         /\
         fst (data_after session opts turns st) =
           inr (last new (_latest st))
         /\
         match fst (background_loop session opts turns st) with
         | inr _ => List.length new = turns
         | inl _ => (List.length new <= turns)%nat
         end).
Proof.
  intros W session opts. split; [|split; [|split; [|split; [|split]]]].
  - intros [[] msg]; reflexivity.
  - intros e. unfold is_error_snapshot. cbn. eauto 6.
  - intros st e He Hp Ha.
    rewrite (scrape_once_unfold W session opts st)
      by (rewrite He, Hp; reflexivity).
    cbn [fst]. now rewrite Ha.
  - intros st.
    destruct (scrape_once_spec W session opts st) as (evs & _ & _ & Hr).
    split; [exact Hr|]. apply scrape_once_frame.
  - intros turns st. apply background_loop_turn.
  - intros turns st.
    destruct (background_loop_spec W session opts turns st)
      as (new & Hpub & _ & Hlast & Hlen & Hres).
    exists new. split; [exact Hpub|]. split.
    + unfold data_after, thread_run, bind, try_except, data, ret.
      rewrite <- Hlast.
      destruct (background_loop session opts turns st) as [[e|u] st'];
        reflexivity.
    + destruct (fst (background_loop session opts turns st)); assumption.
Qed.

Lemma C6_recognized_failures_witness :
  truthy (EMAIL some_options) = true /\
  truthy (PASSWORD some_options) = true /\
  fst (scrape_attempt (scripted table_missing) some_options
         (snd (set_var_driver None (init_state 0%nat))))
  = inl {| exc_type := TimeoutException; exc_str := "Message: " |} /\
  fst (scrape_once (scripted table_missing) some_options (init_state 0%nat))
  = inr (error_snapshot
           {| exc_type := TimeoutException; exc_str := "Message: " |}).
Proof.
  split; [reflexivity|]. split; [reflexivity|].
  split; [vm_compute; reflexivity|].
  apply (proj1 (proj2 (proj2
           (C6_recognized_failures nat (scripted table_missing) some_options)))
           (init_state 0%nat)
           {| exc_type := TimeoutException; exc_str := "Message: " |}).
  - reflexivity.
  - reflexivity.
  - vm_compute. reflexivity.
Defined.

(** C10: [_latest] starts as the dictionary with status "init", count 0
    and no measuring points, without an "error" key; as long as the
    scheduler has published nothing, [_latest] is that dictionary;
    afterwards it is the last dictionary published, and every dictionary
    published has status "ok" or "error", so "init" does not come back. *)
Theorem C10_init_until_first_publish :
  forall (W : Type) (session : SessionDriver W) (opts : options)
         (w : W) (turns : nat),
    _latest_init = [ ("status"%string, VStr "init");
                     ("count"%string, VInt 0);
                     ("measuring_points"%string, VList []) ]
    /\
    dict_get "error" _latest_init = None
    /\
    _latest (init_state w) = _latest_init
    /\
    match published (snd (background_loop session opts turns (init_state w)))
    with
    | [] =>
      _latest (snd (background_loop session opts turns (init_state w)))
      = _latest_init
    | x :: l =>
      _latest (snd (background_loop session opts turns (init_state w)))
      = last l x
    end
    /\
    Forall (fun x => ok_or_error x /\
                     dict_get "status" x <> Some (VStr "init"))
      (published (snd (background_loop session opts turns (init_state w)))).
Proof.
  intros W session opts w turns.
  split; [reflexivity|]. split; [reflexivity|]. split; [reflexivity|].
  destruct (background_loop_spec W session opts turns (init_state w))
    as (new & Hpub & Hall & Hlast & _).
  rewrite Hpub, Hlast. cbn [published _latest init_state app]. split.
  - destruct new as [|x l]; [reflexivity|apply last_cons].
  - eapply Forall_impl; [|exact Hall]. intros x Hx.
    apply scrape_result_status in Hx. split; [exact Hx|].
    destruct Hx as [E | E]; rewrite E; discriminate.
Qed.

(* ================================================================= *)
(** * Further properties of the parser *)

Lemma rstrip_idempotent (s : pystr) : rstrip (rstrip s) = rstrip s.
Proof.
  induction s as [|c r IH]; [reflexivity|]. cbn [rstrip].
  destruct (rstrip r) as [|c' r'] eqn:E.
  - destruct (isspace c) eqn:Ec; [reflexivity|]. cbn. now rewrite Ec.
  - cbn [rstrip]. cbn [rstrip] in IH. rewrite IH. reflexivity.
Qed.

Lemma strip_idempotent (s : pystr) : strip (strip s) = strip s.
Proof.
  unfold strip at 1. rewrite lstrip_strip. unfold strip.
  apply rstrip_idempotent.
Qed.

(** X1: blanks around a text never change the number [_extract_float]
    reads from it. *)
Theorem extract_float_ignores_outer_blanks :
  forall s, _extract_float (strip s) = _extract_float s.
Proof.
  intros s. unfold _extract_float. rewrite strip_idempotent.
  destruct s as [|c r]; [reflexivity|].
  destruct (strip (c :: r)) as [|c' r'] eqn:E; reflexivity.
Qed.

Lemma starts_with_app (p q s : pystr) :
  starts_with (p ++ q) s = true -> starts_with p s = true.
Proof.
  revert s. induction p as [|a p IH]; intros s H; [now destruct s|].
  destruct s as [|b s]; [discriminate|]. cbn in H |- *.
  apply andb_true_iff in H as [H1 H2]. rewrite H1. now apply IH.
Qed.

Lemma contains_app (p q s : pystr) :
  contains (p ++ q) s = true -> contains p s = true.
Proof.
  induction s as [|b s IH]; cbn [contains]; intros H.
  - rewrite orb_false_r in H |- *. now apply starts_with_app with (q := q).
  - apply orb_true_iff in H as [H | H]; apply orb_true_iff.
    + left. now apply starts_with_app with (q := q).
    + right. now apply IH.
Qed.

(** X2: a line with a number that contains "°c td" also contains the
    temperature marker "°c", yet the loop stores its number as the dew
    point and leaves the temperature as it was. *)
Theorem dew_point_line_keeps_temperature :
  forall out ln v,
    _extract_float ln = Some v ->
    contains (utf8 "°c td") (lower ln) = true ->
    contains (utf8 "°c") (lower ln) = true /\
    loop_body out ln = set_dew_point_c out v /\
    Parser.temperature_c (loop_body out ln) = Parser.temperature_c out.
Proof.
  intros out ln v Hv Hd. split.
  - apply contains_app with (q := utf8 " td"). exact Hd.
  - unfold loop_body. rewrite Hv.
    change marker_dew with (utf8 "°c td"). rewrite Hd. split; reflexivity.
Qed.

Lemma dew_point_line_keeps_temperature_witness :
  _extract_float (utf8 "9.8 °C Td") = Some (of_decimal false 98 1) /\
  contains (utf8 "°c td") (lower (utf8 "9.8 °C Td")) = true /\
  Parser.temperature_c
    (loop_body (set_temperature_c out_init (of_decimal false 215 1))
               (utf8 "9.8 °C Td"))
  = Some (of_decimal false 215 1).
Proof.
  split; [vm_compute; reflexivity|]. split; [vm_compute; reflexivity|].
  apply (dew_point_line_keeps_temperature
           (set_temperature_c out_init (of_decimal false 215 1))
           (utf8 "9.8 °C Td") (of_decimal false 98 1));
    vm_compute; reflexivity.
Defined.

Lemma fold_some_in (A : Type) (l : list A) (a : option A) (v : A) :
  fold_left (fun _ x => Some x) l a = Some v -> In v l \/ a = Some v.
Proof.
  revert a. induction l as [|x l IH]; cbn; intros a H; [now right|].
  destruct (IH _ H) as [Hin | E]; [now left; right|].
  inversion E. now left; left.
Qed.

Lemma last_value_in (A : Type) (l : list A) (v : A) :
  last_value l = Some v -> In v l.
Proof.
  intros H. destruct (fold_some_in A l None v H) as [Hin | E];
    [exact Hin|discriminate].
Qed.

Lemma field_eqb_eq (f g : field) : field_eqb f g = true -> f = g.
Proof. destruct f, g; cbn; congruence. Qed.

(** X3: every value of the result is the number of one of the lines of
    the cell, a line that classifies to the field holding the value: the
    parser reports no number the cell does not show with that unit. *)
Theorem parsed_values_come_from_lines :
  forall cell_text f v,
    Parser.get f (parse_measurements_cell cell_text) = Some v ->
    exists ln,
      In ln (cell_lines cell_text) /\
      _extract_float ln = Some v /\
      classify ln = Some f.
Proof.
  intros cell_text f v H. unfold parse_measurements_cell in H.
  rewrite loop_last_wins in H.
  destruct (last_value (numbers_of f (cell_lines cell_text))) as [x|] eqn:E;
    [|now destruct f].
  inversion H; subst x. apply last_value_in in E.
  unfold numbers_of in E. apply in_flat_map in E as (ln & Hin & Hv).
  exists ln. split; [exact Hin|].
  destruct (classify ln) as [g|]; [|destruct Hv].
  destruct (_extract_float ln) as [x|]; [|destruct Hv].
  destruct (field_eqb f g) eqn:Efg; [|destruct Hv].
  apply field_eqb_eq in Efg. subst g.
  destruct Hv as [-> | []]. auto.
Qed.

Lemma parsed_values_come_from_lines_witness :
  Parser.get Humidity (parse_measurements_cell (utf8 "45 %rH"))
  = Some (of_decimal false 45 0) /\
  exists ln,
    In ln (cell_lines (utf8 "45 %rH")) /\
    _extract_float ln = Some (of_decimal false 45 0) /\
    classify ln = Some Humidity.
Proof.
  split; [vm_compute; reflexivity|].
  apply (parsed_values_come_from_lines (utf8 "45 %rH") Humidity
           (of_decimal false 45 0)).
  vm_compute. reflexivity.
Defined.

Lemma splitlines_from_unbroken (n : nat) :
  forall s cur,
    (List.length s <= n)%nat -> forallb (fun c => negb (is_linebreak c)) cur = true ->
    Forall (fun ln => forallb (fun c => negb (is_linebreak c)) ln = true) (splitlines_from cur s).
Proof.
  induction n as [|n IH]; intros s cur Hlen Hcur.
  - destruct s; [|cbn in Hlen; lia]. cbn. destruct cur; auto.
  - destruct s as [|c r]; [cbn; destruct cur; auto|].
    cbn in Hlen. cbn [splitlines_from].
    destruct (c =? 13)%N eqn:Ecr.
    + destruct r as [|c1 r1].
      * constructor; [exact Hcur|]. apply IH; [cbn; lia|reflexivity].
      * destruct (c1 =? 10)%N; (constructor; [exact Hcur|]);
          apply IH; cbn in Hlen |- *; try lia; reflexivity.
    + destruct (is_linebreak c) eqn:Eb.
      * constructor; [exact Hcur|]. apply IH; [lia|reflexivity].
      * apply IH; [lia|]. rewrite forallb_app, Hcur. cbn. now rewrite Eb.
Qed.

Lemma lstrip_forallb (P : N -> bool) (s : pystr) :
  forallb P s = true -> forallb P (lstrip s) = true.
Proof.
  induction s as [|c r IH]; [auto|]. intros H. cbn [lstrip].
  destruct (isspace c); [|exact H].
  cbn in H. apply andb_true_iff in H as [_ H]. now apply IH.
Qed.

Lemma rstrip_forallb (P : N -> bool) (s : pystr) :
  forallb P s = true -> forallb P (rstrip s) = true.
Proof.
  induction s as [|c r IH]; [auto|]. intros H. cbn in H.
  apply andb_true_iff in H as [Hc Hr]. cbn [rstrip].
  specialize (IH Hr). destruct (rstrip r) as [|c' r'].
  - destruct (isspace c); cbn; [reflexivity|now rewrite Hc].
  - cbn [forallb] in IH |- *. now rewrite Hc, IH.
Qed.

(** X4: every line the loop works on is non-empty, has no blank at
    either end and contains no line boundary. *)
Theorem cell_lines_are_clean :
  forall cell_text ln,
    In ln (cell_lines cell_text) ->
    ln <> [] /\
    strip ln = ln /\
    forallb (fun c => negb (is_linebreak c)) ln = true.
Proof.
  intros cell_text ln H. unfold cell_lines in H.
  apply in_map_iff in H as (x & <- & Hx).
  apply filter_In in Hx as [Hx Ht].
  split; [|split].
  - intros E. now rewrite E in Ht.
  - apply strip_idempotent.
  - unfold strip. apply rstrip_forallb, lstrip_forallb.
    pose proof (splitlines_from_unbroken (List.length cell_text) cell_text []
                  (le_n _) eq_refl) as HF.
    rewrite Forall_forall in HF. exact (HF x Hx).
Qed.

Lemma cell_lines_are_clean_witness :
  In (utf8 "45 %rH") (cell_lines (unlines [utf8 "  "; utf8 " 45 %rH "])) /\
  utf8 "45 %rH" <> [] /\
  strip (utf8 "45 %rH") = utf8 "45 %rH".
Proof.
  assert (H : In (utf8 "45 %rH")
                 (cell_lines (unlines [utf8 "  "; utf8 " 45 %rH "])))
    by (vm_compute; auto).
  split; [exact H|].
  destruct (cell_lines_are_clean _ _ H) as (H1 & H2 & _). auto.
Defined.

Lemma nonblank_cons (x : pystr) (l : list pystr) :
  map strip (filter (fun ln => truthy (strip ln)) (x :: l)) =
  (if truthy (strip x) then [strip x] else [])
  ++ map strip (filter (fun ln => truthy (strip ln)) l).
Proof. cbn [filter]. destruct (truthy (strip x)); reflexivity. Qed.

Lemma splitlines_from_newline (n : nat) :
  forall s cur t,
    (List.length s <= n)%nat ->
    map strip (filter (fun ln => truthy (strip ln))
                      (splitlines_from cur (s ++ 10%N :: t))) =
    map strip (filter (fun ln => truthy (strip ln)) (splitlines_from cur s))
    ++ map strip (filter (fun ln => truthy (strip ln)) (splitlines_from [] t)).
Proof.
  induction n as [|n IH]; intros s cur t Hlen.
  - destruct s; [|cbn in Hlen; lia]. cbn [app splitlines_from].
    change (10 =? 13)%N with false. change (is_linebreak 10) with true.
    cbn iota. rewrite nonblank_cons.
    destruct cur as [|c cur]; [reflexivity|]. rewrite nonblank_cons.
    cbn [filter map]. now rewrite app_nil_r.
  - destruct s as [|c r].
    + apply (IH [] cur t). cbn. lia.
    + cbn in Hlen. cbn [app splitlines_from].
      destruct (c =? 13)%N eqn:Ecr.
      * destruct r as [|c1 r1].
        -- cbn [app]. change (10 =? 10)%N with true. cbn iota.
           cbn [splitlines_from]. rewrite !nonblank_cons.
           cbn [filter map]. now rewrite app_nil_r.
        -- cbn [app]. cbn in Hlen.
           destruct (c1 =? 10)%N; rewrite !nonblank_cons.
           ++ rewrite (IH r1 [] t) by lia. now rewrite app_assoc.
           ++ change (c1 :: r1 ++ 10%N :: t) with ((c1 :: r1) ++ 10%N :: t).
              rewrite (IH (c1 :: r1) [] t) by (cbn; lia).
              now rewrite app_assoc.
      * destruct (is_linebreak c).
        -- rewrite !nonblank_cons, (IH r [] t) by lia. now rewrite app_assoc.
        -- apply IH. lia.
Qed.

Lemma cell_lines_newline (s t : pystr) :
  cell_lines (s ++ 10%N :: t) = cell_lines s ++ cell_lines t.
Proof.
  unfold cell_lines, splitlines.
  exact (splitlines_from_newline (List.length s) s [] t (le_n _)).
Qed.

(** X5: a cell is parsed line by line: the lines of [s], a newline and
    [t] are those of [s] followed by those of [t], and parsing the whole
    is running the loop over the lines of [t] from the result for [s]. *)
Theorem parse_cell_line_by_line :
  forall s t,
    cell_lines (s ++ 10%N :: t) = cell_lines s ++ cell_lines t /\
    parse_measurements_cell (s ++ 10%N :: t) =
    fold_left loop_body (cell_lines t) (parse_measurements_cell s).
Proof.
  intros s t. split; [apply cell_lines_newline|].
  unfold parse_measurements_cell.
  now rewrite cell_lines_newline, fold_left_app.
Qed.

(* ================================================================= *)
(** * Further properties of the row loop *)

Lemma or_none_some (x s : pystr) : or_none x = Some s -> s = x /\ x <> [].
Proof.
  unfold or_none. destruct x; cbn; intros H; inversion H.
  split; [reflexivity|discriminate].
Qed.

(** X6: in every record the name is trimmed, a group that is present is
    trimmed, and the last measurement and the internal id are each either
    [None] or a trimmed, non-empty string. *)
Theorem record_texts_are_trimmed :
  forall tds,
    strip (measuring_point (point_of tds)) = measuring_point (point_of tds)
    /\
    (forall s, group (point_of tds) = Some s -> strip s = s)
    /\
    (forall s, last_measurement (point_of tds) = Some s ->
               s <> [] /\ strip s = s)
    /\
    (forall s, internal_id (point_of tds) = Some s ->
               s <> [] /\ strip s = s).
Proof.
  intros tds. cbn [point_of measuring_point group last_measurement
                   internal_id].
  split; [apply strip_idempotent|]. split; [|split].
  - intros s. unfold group_of.
    destruct (find_element_a (item tds 3)) as [a|].
    + intros H. inversion H. apply strip_idempotent.
    + intros H. apply or_none_some in H as [-> _]. apply strip_idempotent.
  - intros s H. apply or_none_some in H as [-> Hne].
    split; [exact Hne|apply strip_idempotent].
  - intros s H. apply or_none_some in H as [-> Hne].
    split; [exact Hne|apply strip_idempotent].
Qed.

Lemma record_texts_are_trimmed_witness :
  last_measurement
    (point_of (tr_tds (data_row "Cellar" "House" "12.5 °C" " 10:00 " "77")))
  = Some (utf8 "10:00") /\
  utf8 "10:00" <> [] /\ strip (utf8 "10:00") = utf8 "10:00".
Proof.
  assert (H : last_measurement
                (point_of (tr_tds (data_row "Cellar" "House" "12.5 °C"
                                            " 10:00 " "77")))
              = Some (utf8 "10:00")) by (vm_compute; reflexivity).
  split; [exact H|].
  exact (proj1 (proj2 (proj2 (record_texts_are_trimmed _))) _ H).
Defined.

Lemma item_app (tds extra : list td) (i : nat) :
  (i < List.length tds)%nat -> item (tds ++ extra) i = item tds i.
Proof. intros H. unfold item. now apply app_nth1. Qed.

(** X7: the record of a row does not depend on its first two cells,
    nor, once the row has seven cells, on any cell after the seventh. *)
Theorem unread_cells_do_not_matter :
  (forall c0 c1 c0' c1' rest,
     point_of (c0 :: c1 :: rest) = point_of (c0' :: c1' :: rest))
  /\
  (forall tds extra,
     (7 <= List.length tds)%nat -> point_of (tds ++ extra) = point_of tds).
Proof.
  split; [reflexivity|].
  intros tds extra H. unfold point_of.
  rewrite !item_app by lia. reflexivity.
Qed.

Lemma unread_cells_do_not_matter_witness :
  (7 <= List.length (tr_tds (data_row "Cellar" "House" "12.5 °C" "10:00" "77")))%nat
  /\
  point_of (tr_tds (data_row "Cellar" "House" "12.5 °C" "10:00" "77")
            ++ [text_cell "edit"; text_cell "delete"])
  = point_of (tr_tds (data_row "Cellar" "House" "12.5 °C" "10:00" "77")).
Proof.
  split; [cbn; lia|].
  apply (proj2 unread_cells_do_not_matter). cbn. lia.
Defined.

(** X8: the records of a table are those of its first rows followed by
    those of its remaining rows; there are as many records as data rows,
    so never more than rows. *)
Theorem parse_rows_by_parts :
  forall first_rows more_rows,
    parse_rows (first_rows ++ more_rows) =
    parse_rows first_rows ++ parse_rows more_rows
    /\
    List.length (parse_rows first_rows) =
    List.length (filter is_data_row first_rows)
    /\
    (List.length (parse_rows first_rows) <= List.length first_rows)%nat.
Proof.
  intros a b. rewrite !parse_rows_filter, filter_app, map_app, length_map.
  split; [reflexivity|]. split; [reflexivity|]. apply filter_length_le.
Qed.

(* ================================================================= *)
(** * Further properties of the session code *)

(** X9: [find_first] looks the selectors up in their order and stops at
    the first look-up that does not raise [NoSuchElementException].  With
    [k] the number of look-ups that raise it in a row from the first
    selector on, [find_first] makes the look-ups of the first [k + 1]
    selectors and no other; if the look-up after those [k] returns an
    element, that element is the result; if it raises, its exception is
    raised; and if there is none, every selector was tried and the result
    is [None].  The session is left as that last look-up left it. *)
Theorem find_first_tries_in_order :
  forall (W : Type) (session : SessionDriver W) (d : driver)
         (selectors : list (By * string)) (st : state W),
    forallb (fun r => match fst r with
                      | inl e => is_NoSuchElementException e
                      | inr _ => false
                      end)
      (firstn (leading_misses (lookups session d selectors (world st)))
              (lookups session d selectors (world st))) = true
    /\
    calls (snd (find_first session d selectors st)) =
      calls st ++
      find_calls d
        (firstn (S (leading_misses (lookups session d selectors (world st))))
                selectors)
    /\
    match nth_error (lookups session d selectors (world st))
            (leading_misses (lookups session d selectors (world st)))
    with
    | Some (inr el, w) =>
      fst (find_first session d selectors st) = inr (Some el) /\
      world (snd (find_first session d selectors st)) = w
    | Some (inl e, w) =>
      fst (find_first session d selectors st) = inl e /\
      is_NoSuchElementException e = false /\
      world (snd (find_first session d selectors st)) = w
    | None =>
      fst (find_first session d selectors st) = inr None /\
      leading_misses (lookups session d selectors (world st)) =
        List.length selectors /\
      world (snd (find_first session d selectors st)) =
        last (map snd (lookups session d selectors (world st))) (world st)
    end.
Proof.
  intros W session d selectors.
  induction selectors as [|[b sel] rest IH]; intros st.
  - cbn. rewrite app_nil_r. auto.
  - cbn [find_first lookups]. unfold try_except, bind, perform, perform_with,
      ret.
    destruct (find_element session d b sel (world st)) as [[e|el] w];
      cbn [fst snd leading_misses].
    + destruct (is_NoSuchElementException e) eqn:Ee.
      * match goal with
        | |- context [find_first session d rest ?s] =>
          destruct (IH s) as (Hm & Hc & Hr)
        end.
        cbn [world calls] in Hm, Hc, Hr.
        cbn [firstn forallb fst nth_error]. rewrite Ee, Hm.
        split; [reflexivity|]. split.
        -- rewrite Hc. cbn [find_calls map fst snd app].
           rewrite <- app_assoc. reflexivity.
        -- destruct (nth_error (lookups session d rest w)
                       (leading_misses (lookups session d rest w)))
             as [[[e'|el] w']|].
           ++ exact Hr.
           ++ exact Hr.
           ++ destruct Hr as (Hr1 & Hr2 & Hr3).
              split; [exact Hr1|]. split; [cbn; now rewrite Hr2|].
              rewrite Hr3. cbn [map snd]. now rewrite last_cons.
      * cbn. rewrite Ee. auto.
    + cbn. auto.
Qed.

(** X10: [open_browser] returns the session [webdriver.Chrome] created;
    it raises the exception of [service.start()] without trying to create
    a session, or the exception of [webdriver.Chrome] after it has stopped
    the service; whatever [service.stop()] does then is swallowed. *)
Theorem open_browser_outcome :
  forall (W : Type) (session : SessionDriver W) (headless : bool)
         (st : state W),
    fst (open_browser session headless st) =
      match service_start session (world st) with
      | (inl e, _) => inl e
      | (inr _, w) => fst (chrome session headless w)
      end
    /\
    calls (snd (open_browser session headless st)) =
      calls st ++
      match service_start session (world st) with
      | (inl _, _) => [EvServiceStart]
      | (inr _, w) =>
        match fst (chrome session headless w) with
        | inl _ => [EvServiceStart; EvChrome None; EvServiceStop]
        | inr d => [EvServiceStart; EvChrome (Some d)]
        end
      end.
Proof.
  intros W session headless st.
  unfold open_browser, bind, try_except, new_chrome, perform, perform_with,
    raise, ret.
  destruct (service_start session (world st)) as [[e|[]] w1]; cbn;
    [auto|].
  destruct (chrome session headless w1) as [[e|d] w2]; cbn.
  - destruct (service_stop session w2) as [[e'|[]] w3]; cbn;
      rewrite <- !app_assoc; auto.
  - rewrite <- !app_assoc. auto.
Qed.

(** X11: when one of the first statements of [login] raises, [login]
    raises the same exception; when the two look-ups return and one of the
    inputs was not found, [login] raises
    [RuntimeError("Could not locate email/password inputs")]; in both cases
    it stops there: the state is the one those statements left, so no key
    was sent to the page. *)
Theorem login_stops_without_inputs :
  forall (W : Type) (session : SessionDriver W) (d : driver)
         (email password : pystr) (timeout : Z) (st st' : state W),
    (forall e,
       login_probe session d timeout st = (inl e, st') ->
       login session d email password timeout st = (inl e, st'))
    /\
    (forall found,
       login_probe session d timeout st = (inr found, st') ->
       fst found = None \/ snd found = None ->
       login session d email password timeout st = (inl inputs_not_found, st')).
Proof.
  intros W session d email password timeout st st'.
  unfold login, login_probe, bind.
  destruct (perform (EvGet d LOGIN_URL) (get session d LOGIN_URL) st)
    as [[e1|u1] s1];
    [split; [intros e H; inversion H; reflexivity
           |intros found H; discriminate]|].
  destruct (perform (EvWaitUntil d login_input_found timeout)
              (wait_until session d login_input_found timeout) s1)
    as [[e2|u2] s2];
    [split; [intros e H; inversion H; reflexivity
           |intros found H; discriminate]|].
  destruct (find_first session d email_selectors s2) as [[e3|o3] s3];
    [split; [intros e H; inversion H; reflexivity
           |intros found H; discriminate]|].
  destruct (find_first session d password_selectors s3) as [[e4|o4] s4];
    [split; [intros e H; inversion H; reflexivity
           |intros found H; discriminate]|].
  unfold ret. split; [intros e H; discriminate|].
  intros found H Hnone. inversion H; subst. cbn in Hnone.
  destruct Hnone as [-> | ->]; [reflexivity|].
  destruct o3; reflexivity.
Qed.

Lemma login_stops_without_inputs_witness :
  login_probe (scripted portal_without_password) 7%nat 30 (init_state 0%nat)
  = (inr (Some 1%nat, None),
     snd (login_probe (scripted portal_without_password) 7%nat 30
            (init_state 0%nat)))
  /\
  login (scripted portal_without_password) 7%nat (utf8 "user@example.org")
        (utf8 "secret") 30 (init_state 0%nat)
  = (inl inputs_not_found,
     snd (login_probe (scripted portal_without_password) 7%nat 30
            (init_state 0%nat))).
Proof.
  split; [vm_compute; reflexivity|].
  apply (proj2 (login_stops_without_inputs nat
                  (scripted portal_without_password) 7%nat
                  (utf8 "user@example.org") (utf8 "secret") 30
                  (init_state 0%nat)
                  (snd (login_probe (scripted portal_without_password) 7%nat
                          30 (init_state 0%nat))))
               (Some 1%nat, None)).
  - vm_compute. reflexivity.
  - right. reflexivity.
Defined.

Lemma find_first_forgiven (W : Type) (session : SessionDriver W) (d : driver)
    (selectors : list (By * string)) (st : state W) :
  find_first (url_wait_forgiven session) d selectors st =
  find_first session d selectors st.
Proof.
  revert st. induction selectors as [|[b sel] rest IH]; intros st;
    [reflexivity|].
  cbn [find_first]. unfold try_except, bind, perform, perform_with.
  cbn [find_element url_wait_forgiven].
  destruct (find_element session d b sel (world st)) as [[e|el] w];
    [|reflexivity].
  cbn. destruct (is_NoSuchElementException e); [apply IH|reflexivity].
Qed.

Lemma bind_ext (W A B : Type) (m m' : M W A) (k k' : A -> M W B)
    (st : state W) :
  m st = m' st -> (forall a s, k a s = k' a s) ->
  bind m k st = bind m' k' st.
Proof.
  intros Hm Hk. unfold bind. rewrite Hm.
  destruct (m' st) as [[e|a] s]; [reflexivity|apply Hk].
Qed.

Lemma url_wait_forgiven_swallowed (W : Type) (session : SessionDriver W)
    (d : driver) (tmo : Z) (st : state W) :
  try_except
    (perform (EvWaitUntil d url_left_login tmo)
             (wait_until (url_wait_forgiven session) d url_left_login tmo))
    is_TimeoutException (fun _ => ret tt) st =
  try_except
    (perform (EvWaitUntil d url_left_login tmo)
             (wait_until session d url_left_login tmo))
    is_TimeoutException (fun _ => ret tt) st.
Proof.
  unfold try_except, perform, perform_with, ret.
  cbn [wait_until url_wait_forgiven].
  destruct (wait_until session d url_left_login tmo (world st))
    as [[e|[]] w]; [|reflexivity].
  destruct (is_TimeoutException e) eqn:E; cbn; rewrite ?E; reflexivity.
Qed.

(** X12: the last statement of [login], the wait for the URL to leave
    the login page, forgives a timeout and nothing else.  If a statement
    before it raises, [login] raises the same from the same state.
    Otherwise the wait is called once: when it returns or raises
    [TimeoutException], [login] returns; any other exception of the wait
    is raised by [login].  In particular [login] behaves on a session
    exactly as on the session that answers "done" instead of
    [TimeoutException] to that wait. *)
Theorem login_forgives_url_timeout :
  forall (W : Type) (session : SessionDriver W) (d : driver)
         (email password : pystr) (timeout : Z) (st : state W),
    login session d email password timeout st =
    match login_submit session d email password timeout st with
    | (inl e, s) => (inl e, s)
    | (inr _, s) =>
      (match fst (wait_until session d url_left_login timeout (world s)) with
       | inl e => if is_TimeoutException e then inr tt else inl e
       | inr _ => inr tt
       end,
       {| world := snd (wait_until session d url_left_login timeout (world s));
          calls := calls s ++ [EvWaitUntil d url_left_login timeout];
          var_driver := var_driver s;
          _latest := _latest s;
          published := published s |})
    end
    /\
    login (url_wait_forgiven session) d email password timeout st =
    login session d email password timeout st.
Proof.
  intros W session d email password tmo st. split.
  - unfold login, login_submit, bind.
    destruct (perform (EvGet d LOGIN_URL) (get session d LOGIN_URL) st)
      as [[e1|u1] s1]; [reflexivity|].
    destruct (perform (EvWaitUntil d login_input_found tmo)
                (wait_until session d login_input_found tmo) s1)
      as [[e2|u2] s2]; [reflexivity|].
    destruct (find_first session d email_selectors s2) as [[e3|o3] s3];
      [reflexivity|].
    destruct (find_first session d password_selectors s3) as [[e4|o4] s4];
      [reflexivity|].
    destruct o3 as [email_input|]; [|reflexivity].
    destruct o4 as [pwd_input|]; [|reflexivity].
    destruct (perform (EvClear email_input) (clear session email_input) s4)
      as [[e5|u5] s5]; [reflexivity|].
    destruct (perform (EvSendKeys email_input email)
                (send_keys session email_input email) s5)
      as [[e6|u6] s6]; [reflexivity|].
    destruct (perform (EvClear pwd_input) (clear session pwd_input) s6)
      as [[e7|u7] s7]; [reflexivity|].
    destruct (perform (EvSendKeys pwd_input password)
                (send_keys session pwd_input password) s7)
      as [[e8|u8] s8]; [reflexivity|].
    destruct (find_first session d submit_selectors s8) as [[e9|o9] s9];
      [reflexivity|].
    match goal with
    | |- context [match ?m s9 with _ => _ end] =>
      destruct (m s9) as [[e10|u10] s10]; [reflexivity|]
    end.
    unfold try_except, perform, perform_with, ret.
    destruct (wait_until session d url_left_login tmo (world s10))
      as [[e|[]] w]; cbn [fst snd]; [|reflexivity].
    destruct (is_TimeoutException e); reflexivity.
  - unfold login.
    apply bind_ext; [reflexivity|intros _ s1].
    apply bind_ext; [reflexivity|intros _ s2].
    apply bind_ext; [apply find_first_forgiven|intros email_input s3].
    apply bind_ext; [apply find_first_forgiven|intros pwd_input s4].
    destruct email_input as [email_input|]; [|reflexivity].
    destruct pwd_input as [pwd_input|]; [|reflexivity].
    apply bind_ext; [reflexivity|intros _ s5].
    apply bind_ext; [reflexivity|intros _ s6].
    apply bind_ext; [reflexivity|intros _ s7].
    apply bind_ext; [reflexivity|intros _ s8].
    apply bind_ext; [apply find_first_forgiven|intros submit s9].
    apply bind_ext; [destruct submit; reflexivity|intros _ s10].
    apply url_wait_forgiven_swallowed.
Qed.

Lemma bind_returns (W A B : Type) (m : M W A) (k : A -> M W B)
    (st : state W) (a : A) :
  fst (m st) = inr a -> bind m k st = k a (snd (m st)).
Proof.
  unfold bind. destruct (m st) as [[e|a'] s]; cbn; intros H;
    [discriminate|].
  now inversion H.
Qed.

Lemma perform_returns (W A : Type) (ev : event) (cap : W -> result A * W)
    (st : state W) (a : A) :
  fst (cap (world st)) = inr a -> fst (perform ev cap st) = inr a.
Proof.
  unfold perform, perform_with. now destruct (cap (world st)) as [r w].
Qed.

(** When look-ups raise nothing but [NoSuchElementException],
    [find_first] returns. *)
Lemma find_first_returns (W : Type) (session : SessionDriver W) (d : driver)
    (selectors : list (By * string)) :
  (forall d b sel w e,
     fst (find_element session d b sel w) = inl e ->
     is_NoSuchElementException e = true) ->
  forall st, exists o, fst (find_first session d selectors st) = inr o.
Proof.
  intros Hmiss. induction selectors as [|[b sel] rest IH]; intros st.
  - exists None. reflexivity.
  - cbn [find_first]. unfold try_except, bind, perform, perform_with, ret.
    pose proof (Hmiss d b sel (world st)) as Hm.
    destruct (find_element session d b sel (world st)) as [[e|el] w];
      cbn [fst snd] in *; [|eauto].
    rewrite (Hm e eq_refl). apply IH.
Qed.

(** When moreover one of the selectors is always found, [find_first]
    returns an element. *)
Lemma find_first_found (W : Type) (session : SessionDriver W) (d : driver)
    (selectors : list (By * string)) :
  (forall d b sel w e,
     fst (find_element session d b sel w) = inl e ->
     is_NoSuchElementException e = true) ->
  always_found session selectors ->
  forall st, exists el, fst (find_first session d selectors st) = inr (Some el).
Proof.
  intros Hmiss (b0 & sel0 & Hin & Hfound).
  induction selectors as [|[b sel] rest IH]; intros st; [destruct Hin|].
  cbn [find_first]. unfold try_except, bind, perform, perform_with, ret.
  pose proof (Hmiss d b sel (world st)) as Hm.
  destruct (find_element session d b sel (world st)) as [[e|el] w] eqn:E;
    cbn [fst snd] in *; [|eauto].
  rewrite (Hm e eq_refl). apply IH.
  destruct Hin as [Heq | Hin]; [|exact Hin].
  exfalso. inversion Heq; subst b0 sel0.
  destruct (Hfound d (world st)) as [el Hel]. rewrite E in Hel. discriminate.
Qed.

(** On a portal that answers, [login] returns. *)
Lemma login_returns (W : Type) (session : SessionDriver W) (rows : list tr)
    (d : driver) (email password : pystr) (tmo : Z) (st : state W) :
  portal_answers session rows ->
  fst (login session d email password tmo st) = inr tt.
Proof.
  intros H. unfold login.
  rewrite (bind_returns _ _ _ _ _ _ tt)
    by (apply perform_returns, (page_loads H)).
  assert (Hw : forall s,
            fst (perform (EvWaitUntil d login_input_found tmo)
                   (wait_until session d login_input_found tmo) s) = inr tt).
  { intros s. apply perform_returns.
    destruct (wait_ends H d login_input_found tmo (world s))
      as [Hr | [Hc _]]; [exact Hr|discriminate]. }
  rewrite (bind_returns _ _ _ _ _ _ tt) by apply Hw.
  match goal with
  | |- context [bind (find_first session d email_selectors) _ ?s] =>
    destruct (find_first_found W session d email_selectors
                (lookup_misses_only H) (email_input_shown H) s)
      as [email_input He]
  end.
  rewrite (bind_returns _ _ _ _ _ _ (Some email_input) He).
  match goal with
  | |- context [bind (find_first session d password_selectors) _ ?s] =>
    destruct (find_first_found W session d password_selectors
                (lookup_misses_only H) (password_input_shown H) s)
      as [pwd_input Hp]
  end.
  rewrite (bind_returns _ _ _ _ _ _ (Some pwd_input) Hp).
  rewrite (bind_returns _ _ _ _ _ _ tt)
    by (apply perform_returns, (input_clears H)).
  rewrite (bind_returns _ _ _ _ _ _ tt)
    by (apply perform_returns, (input_takes_keys H)).
  rewrite (bind_returns _ _ _ _ _ _ tt)
    by (apply perform_returns, (input_clears H)).
  rewrite (bind_returns _ _ _ _ _ _ tt)
    by (apply perform_returns, (input_takes_keys H)).
  match goal with
  | |- context [bind (find_first session d submit_selectors) _ ?s] =>
    destruct (find_first_returns W session d submit_selectors
                (lookup_misses_only H) s) as [submit Hs]
  end.
  rewrite (bind_returns _ _ _ _ _ _ submit Hs).
  rewrite (bind_returns _ _ _ _ _ _ tt)
    by (destruct submit; apply perform_returns;
        [apply (button_clicks H)|apply (input_takes_keys H)]).
  unfold try_except, perform, perform_with, ret.
  match goal with
  | |- context [wait_until session d url_left_login tmo ?w] =>
    destruct (wait_ends H d url_left_login tmo w)
      as [Hr | (_ & e & Hr & Ht)];
    destruct (wait_until session d url_left_login tmo w) as [r w'];
    cbn [fst] in Hr; subst r; cbn [fst]; [reflexivity|]
  end.
  rewrite Ht. reflexivity.
Qed.

(** X13: on every portal that answers, whatever [quit] does and
    whether or not the login page navigates away in time, [scrape_once]
    with both credentials set returns the "ok" snapshot of the records of
    the table shown, whose count is the number of data rows. *)
Theorem scrape_once_on_answering_portal :
  forall (W : Type) (session : SessionDriver W) (rows : list tr)
         (opts : options) (st : state W),
    portal_answers session rows ->
    truthy (EMAIL opts) = true -> truthy (PASSWORD opts) = true ->
    fst (scrape_once session opts st) = inr (ok_snapshot (parse_rows rows))
    /\
    dict_get "count" (ok_snapshot (parse_rows rows))
    = Some (VInt (Z.of_nat (List.length (filter is_data_row rows)))).
Proof.
  intros W session rows opts st H He Hp. split.
  - rewrite (scrape_once_unfold W session opts st)
      by (rewrite He, Hp; reflexivity).
    cbn [fst].
    assert (Ha : forall s,
              fst (scrape_attempt session opts s)
              = inr (ok_snapshot (parse_rows rows))).
    { intros s. unfold scrape_attempt.
      assert (Ho : exists d, fst (open_browser session true s) = inr d).
      { unfold open_browser.
        rewrite (bind_returns _ _ _ _ _ _ tt)
          by (apply perform_returns, (service_starts H)).
        unfold try_except, new_chrome, perform_with.
        match goal with
        | |- context [chrome session true ?w] =>
          destruct (session_created H true w) as [d Hd];
          destruct (chrome session true w) as [r w'];
          cbn [fst] in Hd; subst r
        end.
        exists d. reflexivity. }
      destruct Ho as [d Ho].
      rewrite (bind_returns _ _ _ _ _ _ d Ho).
      rewrite (bind_returns _ _ _ _ _ _ tt) by reflexivity.
      unfold scrape_page.
      rewrite (bind_returns _ _ _ _ _ _ tt)
        by (apply (login_returns W session rows), H).
      rewrite (bind_returns _ _ _ _ _ _ tt)
        by (apply perform_returns, (page_loads H)).
      rewrite (bind_returns _ _ _ _ _ _ tt)
        by (apply perform_returns;
            match goal with
            | |- fst (wait_until session ?d ?c ?t ?w) = _ =>
              destruct (wait_ends H d c t w) as [Hr | [Hc _]];
              [exact Hr|discriminate]
            end).
      rewrite (bind_returns _ _ _ _ _ _ tt)
        by (apply perform_returns, (short_sleep_returns H)).
      unfold parse_measuring_points.
      match goal with
      | |- fst (bind (bind ?m ?k) ?k2 ?s1) = _ =>
        assert (Hrd : fst (m s1) = inr rows)
          by (apply perform_returns, (table_read H));
        rewrite (bind_returns _ _ _ (bind m k) k2 s1 (parse_rows rows))
          by (rewrite (bind_returns _ _ _ m k s1 rows Hrd); reflexivity)
      end.
      reflexivity. }
    now rewrite Ha.
  - change (dict_get "count" (ok_snapshot (parse_rows rows)))
      with (Some (VInt (Z.of_nat (List.length (parse_rows rows))))).
    rewrite parse_rows_filter, length_map. reflexivity.
Qed.

(** The scripted portal whose login page never navigates away is a
    portal that answers. *)
Lemma scripted_portal_answers (rows : list tr) :
  portal_answers (scripted (portal_staying_on_login rows)) rows.
Proof.
  constructor; try (intros; reflexivity).
  - intros headless w. exists 7%nat. reflexivity.
  - intros d [] tmo w; cbn; [left; reflexivity| |left; reflexivity].
    right. split; [reflexivity|]. eexists. split; reflexivity.
  - intros d b sel w e. cbn. unfold portal_form.
    repeat match goal with
           | |- context [if ?c then _ else _] => destruct c
           end; intros E; inversion E; reflexivity.
  - exists CSS_SELECTOR, "input[type='email']"%string.
    split; [cbn; auto|]. intros d w. exists 1%nat. reflexivity.
  - exists CSS_SELECTOR, "input[type='password']"%string.
    split; [cbn; auto|]. intros d w. exists 2%nat. reflexivity.
Qed.

Lemma scrape_once_on_answering_portal_witness :
  portal_answers (scripted (portal_staying_on_login sample_table))
    sample_table /\
  truthy (EMAIL some_options) = true /\
  truthy (PASSWORD some_options) = true /\
  fst (scrape_once (scripted (portal_staying_on_login sample_table))
         some_options (init_state 0%nat))
  = inr (ok_snapshot (parse_rows sample_table)).
Proof.
  split; [exact (scripted_portal_answers sample_table)|].
  split; [reflexivity|]. split; [reflexivity|].
  exact (proj1 (scrape_once_on_answering_portal nat
                  (scripted (portal_staying_on_login sample_table))
                  sample_table some_options (init_state 0%nat)
                  (scripted_portal_answers sample_table) eq_refl eq_refl)).
Defined.

(* ================================================================= *)
(** * Further properties of the cycle and of the scheduler *)

Section Confinement.

Variable W : Type.
Variable session : SessionDriver W.
Variable opts : options.
Variable P : event -> bool.

Lemma confined_ret (A : Type) (a : A) : confined P (ret (W := W) a).
Proof. intros st. exists []. cbn. now rewrite app_nil_r. Qed.

Lemma confined_raise (A : Type) (e : exn) : confined P (raise (W := W) A e).
Proof. intros st. exists []. cbn. now rewrite app_nil_r. Qed.

Lemma confined_perform_with (A : Type) (ev : result A -> event)
    (cap : W -> result A * W) :
  (forall r, P (ev r) = true) -> confined P (perform_with ev cap).
Proof.
  intros H st. unfold perform_with.
  destruct (cap (world st)) as [r w]. exists [ev r]. cbn.
  now rewrite H.
Qed.

Lemma confined_perform (A : Type) (ev : event) (cap : W -> result A * W) :
  P ev = true -> confined P (perform ev cap).
Proof. intros H. now apply confined_perform_with. Qed.

Lemma confined_bind (A B : Type) (m : M W A) (k : A -> M W B) :
  confined P m -> (forall a, confined P (k a)) -> confined P (bind m k).
Proof.
  intros Hm Hk st. unfold bind. specialize (Hm st).
  destruct (m st) as [[e|a] st1]; cbn in *; [exact Hm|].
  destruct Hm as (evs1 & C1 & F1). destruct (Hk a st1) as (evs2 & C2 & F2).
  exists (evs1 ++ evs2). rewrite C2, C1, forallb_app, F1, F2, app_assoc. auto.
Qed.

Lemma confined_try_except (A : Type) (body : M W A) (classes : exn -> bool)
    (handler : exn -> M W A) :
  confined P body -> (forall e, confined P (handler e)) ->
  confined P (try_except body classes handler).
Proof.
  intros Hm Hk st. unfold try_except. specialize (Hm st).
  destruct (body st) as [[e|a] st1]; cbn in *; [|exact Hm].
  destruct (classes e); [|exact Hm].
  destruct Hm as (evs1 & C1 & F1). destruct (Hk e st1) as (evs2 & C2 & F2).
  exists (evs1 ++ evs2). rewrite C2, C1, forallb_app, F1, F2, app_assoc. auto.
Qed.

Lemma confined_try_finally (A : Type) (body : M W A) (fin : M W unit) :
  confined P body -> confined P fin -> confined P (try_finally body fin).
Proof.
  intros Hm Hf st. unfold try_finally. specialize (Hm st).
  destruct (body st) as [r st1]. cbn in Hm.
  destruct Hm as (evs1 & C1 & F1). destruct (Hf st1) as (evs2 & C2 & F2).
  exists (evs1 ++ evs2).
  destruct (fin st1) as [[e|u] st2]; cbn in *;
    rewrite C2, C1, forallb_app, F1, F2, app_assoc; auto.
Qed.

Lemma confined_set_var_driver (d : option driver) :
  confined P (set_var_driver (W := W) d).
Proof. intros st. exists []. cbn. now rewrite app_nil_r. Qed.

Lemma confined_get_var_driver : confined P (get_var_driver (W := W)).
Proof. intros st. exists []. cbn. now rewrite app_nil_r. Qed.

Lemma confined_set_latest (x : pydict) :
  confined P (set_latest (W := W) x).
Proof. intros st. exists []. cbn. now rewrite app_nil_r. Qed.

End Confinement.

Ltac confined_step :=
  match goal with
  | |- confined _ (bind _ _) => apply confined_bind; [|intro]
  | |- confined _ (try_except _ _ _) => apply confined_try_except; [|intro]
  | |- confined _ (try_finally _ _) => apply confined_try_finally
  | |- confined _ (ret _) => apply confined_ret
  | |- confined _ (raise _ _) => apply confined_raise
  | |- confined _ (set_var_driver _) => apply confined_set_var_driver
  | |- confined _ (@get_var_driver _) => apply confined_get_var_driver
  | |- confined _ (perform _ _) => apply confined_perform; reflexivity
  | |- confined _ (perform_with _ _) =>
    apply confined_perform_with; intros [?|?]; reflexivity
  | |- confined _ (match ?x with _ => _ end) => destruct x
  | |- confined _ (if ?b then _ else _) => destruct b
  end.

Lemma find_first_confined (W : Type) (session : SessionDriver W)
    (P : event -> bool) (d : driver) (selectors : list (By * string)) :
  (forall b sel, P (EvFindElement d b sel) = true) ->
  confined P (find_first session d selectors).
Proof.
  intros HP. induction selectors as [|[b sel] rest IH]; cbn [find_first].
  - apply confined_ret.
  - apply confined_try_except; [|intro; exact IH].
    apply confined_bind; [|intro; apply confined_ret].
    apply confined_perform. apply HP.
Qed.

Lemma find_first_no_pause (W : Type) (session : SessionDriver W) (d : driver)
    (selectors : list (By * string)) :
  confined not_pause (find_first session d selectors).
Proof. apply find_first_confined. reflexivity. Qed.

(** No call of [scrape_once] is a pause: it sleeps one second at most. *)
Lemma scrape_once_no_pause (W : Type) (session : SessionDriver W)
    (opts : options) :
  confined not_pause (scrape_once session opts).
Proof.
  unfold scrape_once, scrape_attempt, scrape_page, release_driver,
    open_browser, new_chrome, login, parse_measuring_points, time_sleep.
  repeat first [apply find_first_no_pause | confined_step].
Qed.

Lemma filter_not_pause (evs : list event) :
  forallb not_pause evs = true -> filter is_pause evs = [].
Proof.
  induction evs as [|ev evs IH]; cbn; intros H; [reflexivity|].
  apply andb_true_iff in H as [H1 H2]. unfold not_pause in H1.
  destruct (is_pause ev); [discriminate|]. now apply IH.
Qed.

(** X14: among the calls of any number of scheduler turns, the sleeps
    of 30 seconds or more are the pauses of [background_loop]: each lasts
    [max(30, SCAN_INTERVAL)] seconds and there is exactly one per snapshot
    published; everything [scrape_once] does sleeps less. *)
Theorem one_pause_per_publish :
  forall (W : Type) (session : SessionDriver W) (opts : options)
         (turns : nat) (st : state W),
  exists evs,
    calls (snd (background_loop session opts turns st)) = calls st ++ evs
    /\
    filter is_pause evs =
    repeat (EvSleep (Z.max 30 (SCAN_INTERVAL opts)))
      (List.length (published (snd (background_loop session opts turns st)))
       - List.length (published st))
    /\
    (30 <= Z.max 30 (SCAN_INTERVAL opts))%Z.
Proof.
  intros W session opts turns. induction turns as [|n IH]; intros st.
  - exists []. cbn. rewrite app_nil_r, Nat.sub_diag. split; [reflexivity|].
    split; [reflexivity|lia].
  - rewrite (background_loop_turn W session opts n st).
    destruct (scrape_once_no_pause W session opts st) as (evs1 & C1 & F1).
    destruct (scrape_once_frame W session opts st) as [HP _].
    assert (E30 : (30 <=? Z.max 30 (SCAN_INTERVAL opts))%Z = true)
      by (apply Z.leb_le; lia).
    destruct (scrape_once session opts st) as [[e|x] st1]; cbn [fst snd] in *.
    + exists evs1. rewrite HP, Nat.sub_diag.
      split; [exact C1|]. split; [now apply filter_not_pause|lia].
    + destruct (sleep session (Z.max 30 (SCAN_INTERVAL opts)) (world st1))
        as [[e|u] w]; cbn [fst snd calls published].
      * exists (evs1 ++ [EvSleep (Z.max 30 (SCAN_INTERVAL opts))]).
        split; [rewrite C1, app_assoc; reflexivity|]. split; [|lia].
        rewrite filter_app, (filter_not_pause evs1 F1).
        cbn [app filter is_pause]. rewrite E30, HP, length_app.
        cbn [List.length].
        replace (List.length (published st) + 1 - List.length (published st))%nat
          with 1%nat by lia.
        reflexivity.
      * match goal with
        | |- context [background_loop session opts n ?s] =>
          destruct (IH s) as (evs2 & C2 & F2 & Hm);
          destruct (background_loop_spec W session opts n s)
            as (new & Hpub & _)
        end.
        cbn [published calls] in C2, F2, Hpub.
        exists (evs1 ++ EvSleep (Z.max 30 (SCAN_INTERVAL opts)) :: evs2).
        split; [|split; [|exact Hm]].
        -- rewrite C2, C1, <- !app_assoc. reflexivity.
        -- rewrite filter_app, (filter_not_pause evs1 F1).
           cbn [app filter is_pause]. rewrite E30.
           rewrite F2, Hpub, HP, !length_app. cbn [List.length].
           replace (List.length (published st) + 1 + List.length new
                    - List.length (published st))%nat
             with (S (List.length (published st) + 1 + List.length new
                      - (List.length (published st) + 1)))%nat by lia.
           reflexivity.
Qed.

Lemma sessions_left_app (a b : list event) (open : list driver) :
  sessions_left open (a ++ b) = sessions_left (sessions_left open a) b.
Proof.
  revert open. induction a as [|ev a IH]; intros open; [reflexivity|].
  destruct ev as [| |[d|]| | | | | | | |d [|]|]; cbn; apply IH.
Qed.

Lemma peak_sessions_ge (evs : list event) (open : list driver) :
  (List.length open <= peak_sessions open evs)%nat.
Proof.
  revert open. induction evs as [|ev evs IH]; intros open; cbn; [lia|].
  destruct ev as [| |[d|]| | | | | | | |d [|]|]; cbn;
    try apply IH; lia.
Qed.

Lemma peak_sessions_app (a b : list event) (open : list driver) :
  peak_sessions open (a ++ b) =
  Nat.max (peak_sessions open a) (peak_sessions (sessions_left open a) b).
Proof.
  revert open. induction a as [|ev a IH]; intros open.
  - cbn. pose proof (peak_sessions_ge b open). lia.
  - destruct ev as [| |[d|]| | | | | | | |d [|]|]; cbn; rewrite ?IH; lia.
Qed.

Lemma peak_sessions_plain (evs : list event) (open : list driver) :
  forallb is_plain_call evs = true ->
  peak_sessions open evs = List.length open.
Proof.
  induction evs as [|ev evs IH]; cbn [forallb]; intros H; [reflexivity|].
  apply andb_true_iff in H as [H1 H2].
  destruct ev as [| |[d|]| | | | | | | |d [|]|]; cbn in H1 |- *;
    try discriminate; now apply IH.
Qed.

Lemma failed_quits_app (a b : list event) :
  failed_quits (a ++ b) = failed_quits a ++ failed_quits b.
Proof. apply flat_map_app. Qed.

Lemma failed_quits_plain (evs : list event) :
  forallb is_plain_call evs = true -> failed_quits evs = [].
Proof.
  induction evs as [|ev evs IH]; cbn [forallb]; intros H; [reflexivity|].
  apply andb_true_iff in H as [H1 H2].
  destruct ev as [| |[d|]| | | | | | | |d [|]|]; cbn in H1 |- *;
    try discriminate; now apply IH.
Qed.

Lemma failed_quits_none (evs : list event) :
  forallb no_failed_quit evs = true -> failed_quits evs = [].
Proof.
  induction evs as [|ev evs IH]; cbn [forallb]; intros H; [reflexivity|].
  apply andb_true_iff in H as [H1 H2].
  destruct ev as [| |[d|]| | | | | | | |d [|]|]; cbn in H1 |- *;
    try discriminate; now apply IH.
Qed.

(** The calls of one [scrape_once] have one of the four forms of
    [cycle_calls]. *)
Lemma scrape_once_cycle_calls (W : Type) (session : SessionDriver W)
    (opts : options) (st : state W) :
  exists evs,
    calls (snd (scrape_once session opts st)) = calls st ++ evs /\
    cycle_calls evs.
Proof.
  destruct (scrape_once_spec W session opts st)
    as (evs & (Hc & _ & _) & Hshape & _).
  exists evs. split; [exact Hc|]. unfold cycle_calls.
  destruct Hshape
    as [-> | [-> | [-> | (d & plain & answer & Hp & _ & -> & _)]]]; auto.
  right; right; right. eauto.
Qed.

(** The calls of one [scrape_once] open at most one session more, and
    leave one more open only when [quit] raised. *)
Lemma cycle_calls_sessions (evs : list event) (open : list driver) :
  cycle_calls evs ->
  (List.length (sessions_left open evs) <=
   List.length open + List.length (failed_quits evs))%nat /\
  (peak_sessions open evs <= S (List.length open))%nat.
Proof.
  intros [-> | [-> | [-> | (d & plain & ok & Hp & ->)]]]; cbn -[Nat.max];
    try (split; lia).
  rewrite (sessions_left_plain plain [EvQuit d ok] (d :: open) Hp).
  rewrite peak_sessions_app, (peak_sessions_plain plain (d :: open) Hp).
  rewrite <- (app_nil_r plain) at 2.
  rewrite (sessions_left_plain plain [] (d :: open) Hp).
  rewrite failed_quits_app, (failed_quits_plain plain Hp).
  destruct ok; cbn -[Nat.max].
  - destruct (Nat.eq_dec d d); [|congruence].
    assert (Hrem : (@List.length driver (remove Nat.eq_dec d open)
                    <= @List.length driver open)%nat)
      by apply remove_length_le.
    split; lia.
  - split; lia.
Qed.

(** The same over any number of scheduler turns. *)
Lemma background_loop_sessions (W : Type) (session : SessionDriver W)
    (opts : options) (turns : nat) (st : state W) (open : list driver) :
  exists evs,
    calls (snd (background_loop session opts turns st)) = calls st ++ evs /\
    (List.length (sessions_left open evs) <=
     List.length open + List.length (failed_quits evs))%nat /\
    (peak_sessions open evs <=
     S (List.length open + List.length (failed_quits evs)))%nat.
Proof.
  revert st open. induction turns as [|n IH]; intros st open.
  - exists []. cbn. rewrite app_nil_r. split; [reflexivity|]. split; lia.
  - rewrite (background_loop_turn W session opts n st).
    destruct (scrape_once_cycle_calls W session opts st) as (evs1 & C1 & Hcyc).
    destruct (cycle_calls_sessions evs1 open Hcyc) as [Hleft Hpeak].
    destruct (scrape_once session opts st) as [[e|x] st1]; cbn [fst snd] in *.
    + exists evs1. split; [exact C1|]. split; lia.
    + destruct (sleep session (Z.max 30 (SCAN_INTERVAL opts)) (world st1))
        as [[e|u] w]; cbn [fst snd calls].
      * exists (evs1 ++ [EvSleep (Z.max 30 (SCAN_INTERVAL opts))]).
        split; [rewrite C1, app_assoc; reflexivity|].
        rewrite sessions_left_app, peak_sessions_app, failed_quits_app.
        cbn. rewrite app_nil_r. split; lia.
      * match goal with
        | |- context [background_loop session opts n ?s] =>
          destruct (IH s (sessions_left open evs1)) as (evs2 & C2 & Hl2 & Hp2)
        end.
        cbn [calls] in C2.
        exists (evs1 ++ EvSleep (Z.max 30 (SCAN_INTERVAL opts)) :: evs2).
        split; [rewrite C2, C1, <- !app_assoc; reflexivity|].
        rewrite sessions_left_app, peak_sessions_app, failed_quits_app.
        cbn [sessions_left peak_sessions failed_quits flat_map app].
        fold (failed_quits evs2). rewrite length_app. split; lia.
Qed.

Section Tracking.

Variable W : Type.
Variable session : SessionDriver W.
Variable opts : options.

Lemma tracks_ret (A : Type) (a : A) : tracks (ret (W := tracked W) a).
Proof.
  intros st. exists []. cbn. rewrite app_nil_r.
  split; [reflexivity|]. split; [reflexivity|lia].
Qed.

Lemma tracks_raise (A : Type) (e : exn) :
  tracks (raise (W := tracked W) A e).
Proof.
  intros st. exists []. cbn. rewrite app_nil_r.
  split; [reflexivity|]. split; [reflexivity|lia].
Qed.

Lemma tracks_then (st st1 st2 : state (tracked W)) (evs1 evs2 : list event) :
  calls st1 = calls st ++ evs1 ->
  open_now (world st1) = sessions_left (open_now (world st)) evs1 ->
  (open_peak (world st1) <=
   Nat.max (open_peak (world st))
           (peak_sessions (open_now (world st)) evs1))%nat ->
  calls st2 = calls st1 ++ evs2 ->
  open_now (world st2) = sessions_left (open_now (world st1)) evs2 ->
  (open_peak (world st2) <=
   Nat.max (open_peak (world st1))
           (peak_sessions (open_now (world st1)) evs2))%nat ->
  calls st2 = calls st ++ (evs1 ++ evs2) /\
  open_now (world st2) = sessions_left (open_now (world st)) (evs1 ++ evs2) /\
  (open_peak (world st2) <=
   Nat.max (open_peak (world st))
           (peak_sessions (open_now (world st)) (evs1 ++ evs2)))%nat.
Proof.
  intros C1 O1 P1 C2 O2 P2.
  rewrite C2, C1, O2, O1, sessions_left_app, peak_sessions_app, app_assoc.
  rewrite O1 in P2. split; [reflexivity|]. split; [reflexivity|lia].
Qed.

Lemma tracks_bind (A B : Type) (m : M (tracked W) A)
    (k : A -> M (tracked W) B) :
  tracks m -> (forall a, tracks (k a)) -> tracks (bind m k).
Proof.
  intros Hm Hk st. unfold bind. specialize (Hm st).
  destruct (m st) as [[e|a] st1]; cbn [snd] in *; [exact Hm|].
  destruct Hm as (evs1 & C1 & O1 & P1).
  destruct (Hk a st1) as (evs2 & C2 & O2 & P2).
  exists (evs1 ++ evs2). now apply tracks_then with (st1 := st1).
Qed.

Lemma tracks_try_except (A : Type) (body : M (tracked W) A)
    (classes : exn -> bool) (handler : exn -> M (tracked W) A) :
  tracks body -> (forall e, tracks (handler e)) ->
  tracks (try_except body classes handler).
Proof.
  intros Hm Hk st. unfold try_except. specialize (Hm st).
  destruct (body st) as [[e|a] st1]; cbn [snd] in *; [|exact Hm].
  destruct (classes e); [|exact Hm].
  destruct Hm as (evs1 & C1 & O1 & P1).
  destruct (Hk e st1) as (evs2 & C2 & O2 & P2).
  exists (evs1 ++ evs2). now apply tracks_then with (st1 := st1).
Qed.

Lemma tracks_try_finally (A : Type) (body : M (tracked W) A)
    (fin : M (tracked W) unit) :
  tracks body -> tracks fin -> tracks (try_finally body fin).
Proof.
  intros Hm Hf st. unfold try_finally. specialize (Hm st).
  destruct (body st) as [r st1]. cbn [snd] in Hm.
  destruct Hm as (evs1 & C1 & O1 & P1).
  destruct (Hf st1) as (evs2 & C2 & O2 & P2).
  exists (evs1 ++ evs2).
  destruct (fin st1) as [[e|u] st2]; cbn [snd] in *;
    now apply tracks_then with (st1 := st1).
Qed.

Lemma tracks_set_var_driver (d : option driver) :
  tracks (set_var_driver (W := tracked W) d).
Proof.
  intros st. exists []. cbn. rewrite app_nil_r.
  split; [reflexivity|]. split; [reflexivity|lia].
Qed.

Lemma tracks_get_var_driver : tracks (get_var_driver (W := tracked W)).
Proof.
  intros st. exists []. cbn. rewrite app_nil_r.
  split; [reflexivity|]. split; [reflexivity|lia].
Qed.

Lemma tracks_set_latest (x : pydict) :
  tracks (set_latest (W := tracked W) x).
Proof.
  intros st. exists []. cbn. rewrite app_nil_r.
  split; [reflexivity|]. split; [reflexivity|lia].
Qed.

(** A plain call leaves the books as they are. *)
Lemma tracks_plain (A : Type) (ev : event) (cap : W -> result A * W) :
  is_plain_call ev = true -> tracks (perform ev (untracked cap)).
Proof.
  intros H st. exists [ev]. unfold perform, perform_with, untracked.
  destruct (cap (inner (world st))) as [r w]. cbn [snd calls world].
  split; [reflexivity|].
  destruct ev as [| |[d|]| | | | | | | |d [|]|]; try discriminate;
    cbn; (split; [reflexivity|lia]).
Qed.

Lemma tracks_new_chrome (headless : bool) :
  tracks (new_chrome (tracking session) headless).
Proof.
  intros st. unfold new_chrome, perform_with. cbn [chrome tracking].
  destruct (chrome session headless (inner (world st))) as [[e|d] w];
    eexists; cbn [snd calls world]; (split; [reflexivity|]);
    cbn; (split; [reflexivity|lia]).
Qed.

Lemma tracks_quit (d : driver) :
  tracks (perform_with (fun r => EvQuit d (returned r))
            (quit (tracking session) d)).
Proof.
  intros st. unfold perform_with. cbn [quit tracking].
  destruct (quit session d (inner (world st))) as [[e|u] w];
    eexists; cbn [snd calls world]; (split; [reflexivity|]);
    cbn; (split; [reflexivity|]).
  - lia.
  - assert (Hrem : (@List.length driver
                      (remove Nat.eq_dec d (open_now (world st)))
                    <= @List.length driver (open_now (world st)))%nat)
      by apply remove_length_le.
    lia.
Qed.

End Tracking.

Ltac tracks_step :=
  match goal with
  | |- tracks (bind _ _) => apply tracks_bind; [|intro]
  | |- tracks (try_except _ _ _) => apply tracks_try_except; [|intro]
  | |- tracks (try_finally _ _) => apply tracks_try_finally
  | |- tracks (ret _) => apply tracks_ret
  | |- tracks (raise _ _) => apply tracks_raise
  | |- tracks (set_var_driver _) => apply tracks_set_var_driver
  | |- tracks (@get_var_driver _) => apply tracks_get_var_driver
  | |- tracks (set_latest _) => apply tracks_set_latest
  | |- tracks (new_chrome _ _) => apply tracks_new_chrome
  | |- tracks (perform_with _ (quit _ _)) => apply tracks_quit
  | |- tracks (perform _ _) => apply tracks_plain; reflexivity
  | |- tracks (match ?x with _ => _ end) => destruct x
  | |- tracks (if ?b then _ else _) => destruct b
  end.

Lemma tracks_find_first (W : Type) (session : SessionDriver W) (d : driver)
    (selectors : list (By * string)) :
  tracks (find_first (tracking session) d selectors).
Proof.
  induction selectors as [|[b sel] rest IH]; cbn [find_first].
  - apply tracks_ret.
  - repeat tracks_step. exact IH.
Qed.

Lemma tracks_scrape_once (W : Type) (session : SessionDriver W)
    (opts : options) :
  tracks (scrape_once (tracking session) opts).
Proof.
  unfold scrape_once, scrape_attempt, scrape_page, release_driver,
    open_browser, login, parse_measuring_points, time_sleep.
  repeat first [apply tracks_find_first | tracks_step].
Qed.

Lemma tracks_background_loop (W : Type) (session : SessionDriver W)
    (opts : options) (turns : nat) :
  tracks (background_loop (tracking session) opts turns).
Proof.
  induction turns as [|n IH]; cbn [background_loop].
  - apply tracks_ret.
  - unfold time_sleep.
    repeat first [apply tracks_scrape_once | exact IH | tracks_step].
Qed.

Section Mirror.

Variable W : Type.
Variable session : SessionDriver W.
Variable opts : options.

Lemma mirrors_ret (A : Type) (a : A) :
  mirrors (ret (W := tracked W) a) (ret (W := W) a).
Proof. intros st. split; reflexivity. Qed.

Lemma mirrors_raise (A : Type) (e : exn) :
  mirrors (raise (W := tracked W) A e) (raise (W := W) A e).
Proof. intros st. split; reflexivity. Qed.

Lemma mirrors_bind (A B : Type) (m' : M (tracked W) A) (m : M W A)
    (k' : A -> M (tracked W) B) (k : A -> M W B) :
  mirrors m' m -> (forall a, mirrors (k' a) (k a)) ->
  mirrors (bind m' k') (bind m k).
Proof.
  intros Hm Hk st. unfold bind. destruct (Hm st) as [Hr Hs].
  destruct (m' st) as [r' st1']; destruct (m (forget st)) as [r st1].
  cbn [fst snd] in Hr, Hs. subst r' st1.
  destruct r as [e|a]; [split; reflexivity|apply Hk].
Qed.

Lemma mirrors_try_except (A : Type) (m' : M (tracked W) A) (m : M W A)
    (classes : exn -> bool)
    (h' : exn -> M (tracked W) A) (h : exn -> M W A) :
  mirrors m' m -> (forall e, mirrors (h' e) (h e)) ->
  mirrors (try_except m' classes h') (try_except m classes h).
Proof.
  intros Hm Hk st. unfold try_except. destruct (Hm st) as [Hr Hs].
  destruct (m' st) as [r' st1']; destruct (m (forget st)) as [r st1].
  cbn [fst snd] in Hr, Hs. subst r' st1.
  destruct r as [e|a]; [|split; reflexivity].
  destruct (classes e); [apply Hk|split; reflexivity].
Qed.

Lemma mirrors_try_finally (A : Type) (m' : M (tracked W) A) (m : M W A)
    (f' : M (tracked W) unit) (f : M W unit) :
  mirrors m' m -> mirrors f' f ->
  mirrors (try_finally m' f') (try_finally m f).
Proof.
  intros Hm Hf st. unfold try_finally. destruct (Hm st) as [Hr Hs].
  destruct (m' st) as [r' st1']; destruct (m (forget st)) as [r st1].
  cbn [fst snd] in Hr, Hs. subst r' st1.
  destruct (Hf st1') as [Hr2 Hs2].
  destruct (f' st1') as [r2' st2']; destruct (f (forget st1')) as [r2 st2].
  cbn [fst snd] in Hr2, Hs2. subst r2' st2.
  destruct r2; split; reflexivity.
Qed.

Lemma mirrors_set_var_driver (d : option driver) :
  mirrors (set_var_driver (W := tracked W) d) (set_var_driver (W := W) d).
Proof. intros st. split; reflexivity. Qed.

Lemma mirrors_get_var_driver :
  mirrors (get_var_driver (W := tracked W)) (get_var_driver (W := W)).
Proof. intros st. split; reflexivity. Qed.

Lemma mirrors_set_latest (x : pydict) :
  mirrors (set_latest (W := tracked W) x) (set_latest (W := W) x).
Proof. intros st. split; reflexivity. Qed.

(** A call is answered with book-keeping as without. *)
Lemma mirrors_perform_with (A : Type) (ev : result A -> event)
    (cap' : tracked W -> result A * tracked W) (cap : W -> result A * W) :
  (forall t, fst (cap' t) = fst (cap (inner t)) /\
             inner (snd (cap' t)) = snd (cap (inner t))) ->
  mirrors (perform_with ev cap') (perform_with ev cap).
Proof.
  intros H st. unfold perform_with. destruct (H (world st)) as [Hr Hs].
  cbn [forget world].
  destruct (cap' (world st)) as [r' t]; destruct (cap (inner (world st)))
    as [r w].
  cbn [fst snd] in Hr, Hs. subst r' w. split; reflexivity.
Qed.

Lemma untracked_answer (A : Type) (cap : W -> result A * W) (t : tracked W) :
  fst (untracked cap t) = fst (cap (inner t)) /\
  inner (snd (untracked cap t)) = snd (cap (inner t)).
Proof.
  unfold untracked. destruct (cap (inner t)) as [r w]. split; reflexivity.
Qed.

Lemma chrome_answer (headless : bool) (t : tracked W) :
  fst (chrome (tracking session) headless t) =
    fst (chrome session headless (inner t)) /\
  inner (snd (chrome (tracking session) headless t)) =
    snd (chrome session headless (inner t)).
Proof.
  cbn [chrome tracking].
  destruct (chrome session headless (inner t)) as [[e|d] w];
    split; reflexivity.
Qed.

Lemma quit_answer (d : driver) (t : tracked W) :
  fst (quit (tracking session) d t) = fst (quit session d (inner t)) /\
  inner (snd (quit (tracking session) d t)) = snd (quit session d (inner t)).
Proof.
  cbn [quit tracking].
  destruct (quit session d (inner t)) as [r w]. split; reflexivity.
Qed.

End Mirror.

Ltac mirrors_step :=
  match goal with
  | |- mirrors (bind _ _) (bind _ _) => apply mirrors_bind; [|intro]
  | |- mirrors (try_except _ _ _) (try_except _ _ _) =>
    apply mirrors_try_except; [|intro]
  | |- mirrors (try_finally _ _) (try_finally _ _) =>
    apply mirrors_try_finally
  | |- mirrors (ret _) (ret _) => apply mirrors_ret
  | |- mirrors (raise _ _) (raise _ _) => apply mirrors_raise
  | |- mirrors (set_var_driver _) (set_var_driver _) =>
    apply mirrors_set_var_driver
  | |- mirrors (@get_var_driver _) (@get_var_driver _) =>
    apply mirrors_get_var_driver
  | |- mirrors (set_latest _) (set_latest _) => apply mirrors_set_latest
  | |- mirrors (new_chrome _ _) (new_chrome _ _) =>
    apply mirrors_perform_with; intro; apply chrome_answer
  | |- mirrors (perform_with _ (quit _ _)) (perform_with _ (quit _ _)) =>
    apply mirrors_perform_with; intro; apply quit_answer
  | |- mirrors (perform _ _) (perform _ _) =>
    apply mirrors_perform_with; intro; apply untracked_answer
  | |- mirrors (match ?x with _ => _ end) (match ?x with _ => _ end) =>
    destruct x
  | |- mirrors (if ?b then _ else _) (if ?b then _ else _) => destruct b
  end.

Lemma mirrors_find_first (W : Type) (session : SessionDriver W) (d : driver)
    (selectors : list (By * string)) :
  mirrors (find_first (tracking session) d selectors)
          (find_first session d selectors).
Proof.
  induction selectors as [|[b sel] rest IH]; cbn [find_first].
  - apply mirrors_ret.
  - repeat mirrors_step. exact IH.
Qed.

Lemma mirrors_scrape_once (W : Type) (session : SessionDriver W)
    (opts : options) :
  mirrors (scrape_once (tracking session) opts) (scrape_once session opts).
Proof.
  unfold scrape_once, scrape_attempt, scrape_page, release_driver,
    open_browser, login, parse_measuring_points, time_sleep.
  repeat first [apply mirrors_find_first | mirrors_step].
Qed.

Lemma mirrors_background_loop (W : Type) (session : SessionDriver W)
    (opts : options) (turns : nat) :
  mirrors (background_loop (tracking session) opts turns)
          (background_loop session opts turns).
Proof.
  induction turns as [|n IH]; cbn [background_loop].
  - apply mirrors_ret.
  - unfold time_sleep.
    repeat first [apply mirrors_scrape_once | exact IH | mirrors_step].
Qed.

(** When [quit] never raises, no call of [scrape_once] is a [quit] that
    raised. *)
Lemma scrape_once_quits_return (W : Type) (session : SessionDriver W)
    (opts : options) :
  (forall d w, fst (quit session d w) = inr tt) ->
  confined no_failed_quit (scrape_once session opts).
Proof.
  intros Hq.
  assert (Hrel : forall d,
            confined no_failed_quit
              (perform_with (fun r => EvQuit d (returned r)) (quit session d))).
  { intros d st. unfold perform_with. specialize (Hq d (world st)).
    destruct (quit session d (world st)) as [r w]. cbn in Hq. subst r.
    exists [EvQuit d true]. split; reflexivity. }
  unfold scrape_once, scrape_attempt, scrape_page, release_driver,
    open_browser, new_chrome, login, parse_measuring_points, time_sleep.
  repeat first [apply Hrel | apply find_first_confined; reflexivity
               | confined_step].
Qed.

Lemma background_loop_quits_return (W : Type) (session : SessionDriver W)
    (opts : options) (turns : nat) :
  (forall d w, fst (quit session d w) = inr tt) ->
  confined no_failed_quit (background_loop session opts turns).
Proof.
  intros Hq. induction turns as [|n IH]; cbn [background_loop].
  - apply confined_ret.
  - unfold time_sleep.
    repeat first [apply (scrape_once_quits_return W session opts Hq)
                 | exact IH | apply confined_set_latest | confined_step].
Qed.

(** X15: run on any session, with books kept of the sessions open, the
    scheduler does what it does without the books, and after any number
    of turns the sessions open are at most as many as the calls to [quit]
    that raised, and at no time were more open than one more than that:
    a cycle creates its session only after it has called [quit] on the
    previous one.  With a [quit] that never raises, no session is left
    open and never more than one was open at a time. *)
Theorem never_two_sessions_open :
  forall (W : Type) (session : SessionDriver W) (opts : options)
         (turns : nat) (w : W),
    fst (background_loop (tracking session) opts turns
           (init_state (nothing_open w)))
    = fst (background_loop session opts turns (init_state w))
    /\
    forget (snd (background_loop (tracking session) opts turns
                   (init_state (nothing_open w))))
    = snd (background_loop session opts turns (init_state w))
    /\
    (List.length
       (open_now (world (snd (background_loop (tracking session) opts turns
                                (init_state (nothing_open w))))))
     <= List.length
          (failed_quits
             (calls (snd (background_loop session opts turns
                            (init_state w))))))%nat
    /\
    (open_peak (world (snd (background_loop (tracking session) opts turns
                              (init_state (nothing_open w)))))
     <= 1 + List.length
              (failed_quits
                 (calls (snd (background_loop session opts turns
                                (init_state w))))))%nat
    /\
    ((forall d w', fst (quit session d w') = inr tt) ->
     open_now (world (snd (background_loop (tracking session) opts turns
                             (init_state (nothing_open w))))) = []
     /\
     (open_peak (world (snd (background_loop (tracking session) opts turns
                               (init_state (nothing_open w))))) <= 1)%nat).
Proof.
  intros W session opts turns w.
  destruct (mirrors_background_loop W session opts turns
              (init_state (nothing_open w))) as [Hfst Hsnd].
  change (forget (init_state (nothing_open w))) with (init_state w)
    in Hfst, Hsnd.
  destruct (tracks_background_loop W session opts turns
              (init_state (nothing_open w))) as (evs & C & O & P).
  destruct (background_loop_sessions W session opts turns (init_state w) [])
    as (evs' & C' & Hleft & Hpeak).
  assert (Hcalls : calls (snd (background_loop session opts turns
                                 (init_state w))) = evs).
  { rewrite <- Hsnd. exact C. }
  assert (Heq : evs' = evs) by (rewrite C' in Hcalls; exact Hcalls).
  subst evs'. cbn [init_state nothing_open world open_now open_peak
                   List.length Nat.add Nat.max] in O, P, Hleft, Hpeak.
  rewrite Hcalls, O.
  split; [exact Hfst|]. split; [exact Hsnd|].
  split; [exact Hleft|]. split; [lia|].
  intros Hq.
  destruct (background_loop_quits_return W session opts turns Hq
              (init_state w)) as (evs2 & C2 & F2).
  assert (Heq : evs2 = evs) by (rewrite C2 in Hcalls; exact Hcalls).
  subst evs2. apply failed_quits_none in F2. rewrite F2 in Hleft, Hpeak.
  cbn [List.length Nat.add] in Hleft, Hpeak.
  split; [|lia].
  destruct (sessions_left [] evs); [reflexivity|cbn in Hleft; lia].
Qed.

Lemma never_two_sessions_open_witness :
  (forall d w', fst (quit (scripted portal_up) d w') = inr tt)
  /\
  open_now (world (snd (background_loop (tracking (scripted portal_up))
                          some_options 2 (init_state (nothing_open 0%nat)))))
  = []
  /\
  (open_peak (world (snd (background_loop (tracking (scripted portal_up))
                            some_options 2
                            (init_state (nothing_open 0%nat))))) <= 1)%nat.
Proof.
  assert (Hq : forall d w', fst (quit (scripted portal_up) d w') = inr tt)
    by (intros d w'; reflexivity).
  split; [exact Hq|].
  exact (proj2 (proj2 (proj2 (proj2
           (never_two_sessions_open nat (scripted portal_up) some_options 2
              0%nat)))) Hq).
Defined.

(* ================================================================= *)
(** * The options and the log endpoint *)

Lemma option_text_cases (key : pystr) (d : list (pystr * Service.pyobj)) :
  Service.option_text key d =
  if Service.truth (Service.dict_get_default key (Service.of_str []) d)
  then strip (Service.printed
                (Service.dict_get_default key (Service.of_str []) d))
  else [].
Proof.
  unfold Service.option_text, Service.py_or.
  destruct (Service.truth
              (Service.dict_get_default key (Service.of_str []) d));
    reflexivity.
Qed.

Lemma option_text_trimmed (key : pystr) (d : list (pystr * Service.pyobj)) :
  strip (Service.option_text key d) = Service.option_text key d.
Proof. unfold Service.option_text. apply strip_idempotent. Qed.

Lemma option_text_of_dict (key : pystr) (file : Service.options_file) :
  Service.option_text key (Service.load_options file) <> [] ->
  exists items,
    file = Some (inr (Service.Dict items)) /\
    Service.truth
      (Service.dict_get_default key (Service.of_str []) items) = true /\
    Service.option_text key (Service.load_options file) =
    strip (Service.printed
             (Service.dict_get_default key (Service.of_str []) items)).
Proof.
  intros H. destruct file as [[e|[items|]]|]; cbn in H;
    try (exfalso; apply H; reflexivity).
  exists items. cbn [Service.load_options] in H |- *.
  rewrite option_text_cases in H |- *.
  destruct (Service.truth
              (Service.dict_get_default key (Service.of_str []) items));
    [auto|congruence].
Qed.

(** X17: [EMAIL] and [PASSWORD] are always trimmed, and each is
    non-empty only when the options file was read as a dictionary that
    holds a true value under its key; it is then the trimmed [str] of that
    value. *)
Theorem resolved_credentials :
  forall (file : Service.options_file) (scan_interval : Z),
    strip (EMAIL (Service.resolve_options file scan_interval))
    = EMAIL (Service.resolve_options file scan_interval)
    /\
    strip (PASSWORD (Service.resolve_options file scan_interval))
    = PASSWORD (Service.resolve_options file scan_interval)
    /\
    (EMAIL (Service.resolve_options file scan_interval) <> [] ->
     exists items,
       file = Some (inr (Service.Dict items)) /\
       Service.truth
         (Service.dict_get_default (utf8 "email") (Service.of_str []) items)
       = true /\
       EMAIL (Service.resolve_options file scan_interval) =
       strip (Service.printed
                (Service.dict_get_default (utf8 "email") (Service.of_str [])
                   items)))
    /\
    (PASSWORD (Service.resolve_options file scan_interval) <> [] ->
     exists items,
       file = Some (inr (Service.Dict items)) /\
       Service.truth
         (Service.dict_get_default (utf8 "password") (Service.of_str [])
            items)
       = true /\
       PASSWORD (Service.resolve_options file scan_interval) =
       strip (Service.printed
                (Service.dict_get_default (utf8 "password")
                   (Service.of_str []) items))).
Proof.
  intros file scan_interval. cbn [Service.resolve_options EMAIL PASSWORD].
  split; [apply option_text_trimmed|]. split; [apply option_text_trimmed|].
  split; apply option_text_of_dict.
Qed.

Lemma resolved_credentials_witness :
  EMAIL (Service.resolve_options
           (Some (inr (Service.Dict
                         [(utf8 "email", Service.of_str (utf8 " a@b.c "))])))
           300)
  = utf8 "a@b.c"
  /\
  exists items,
    (Some (inr (Service.Dict
                  [(utf8 "email", Service.of_str (utf8 " a@b.c "))]))
     : Service.options_file)
    = Some (inr (Service.Dict items)) /\
    Service.truth
      (Service.dict_get_default (utf8 "email") (Service.of_str []) items)
    = true.
Proof.
  split; [vm_compute; reflexivity|].
  destruct (proj1 (proj2 (proj2
              (resolved_credentials
                 (Some (inr (Service.Dict
                               [(utf8 "email",
                                 Service.of_str (utf8 " a@b.c "))])))
                 300))))
    as (items & Hf & Ht & _).
  - vm_compute. discriminate.
  - exists items. auto.
Defined.

Lemma scrape_once_missing (W : Type) (session : SessionDriver W)
    (opts : options) (st : state W) :
  EMAIL opts = [] \/ PASSWORD opts = [] ->
  scrape_once session opts st = (inr missing_credentials, st).
Proof.
  intros H. unfold scrape_once.
  destruct H as [H | H]; rewrite H; cbn; [reflexivity|].
  now rewrite orb_true_r.
Qed.

(** X18: when the options file is absent, cannot be read or parsed,
    holds something other than a dictionary, or holds under "email" or
    "password" no value, a false one or a blank one, [scrape_once] returns
    the missing-credentials snapshot and makes no call on the session. *)
Theorem unusable_options_give_missing_credentials :
  forall (W : Type) (session : SessionDriver W)
         (file : Service.options_file) (scan_interval : Z) (st : state W),
    (file = None \/
     (exists e, file = Some (inl e)) \/
     file = Some (inr Service.NotADict) \/
     (exists items key,
        file = Some (inr (Service.Dict items)) /\
        (key = utf8 "email" \/ key = utf8 "password") /\
        (Service.truth
           (Service.dict_get_default key (Service.of_str []) items) = false
         \/
         strip (Service.printed
                  (Service.dict_get_default key (Service.of_str []) items))
         = []))) ->
    scrape_once session (Service.resolve_options file scan_interval) st
    = (inr missing_credentials, st).
Proof.
  intros W session file scan_interval st H. apply scrape_once_missing.
  cbn [Service.resolve_options EMAIL PASSWORD].
  destruct H as [-> | [[e ->] | [-> | (items & key & -> & Hk & Hv)]]];
    try (left; reflexivity).
  cbn [Service.load_options].
  assert (E : Service.option_text key items = []).
  { rewrite option_text_cases.
    destruct Hv as [-> | Hv]; [reflexivity|].
    rewrite Hv. now destruct (Service.truth _). }
  destruct Hk as [-> | ->]; auto.
Qed.

Lemma unusable_options_give_missing_credentials_witness :
  scrape_once (scripted portal_up)
    (Service.resolve_options
       (Some (inr (Service.Dict
                     [(utf8 "email", Service.of_str (utf8 "a@b.c"));
                      (utf8 "password", Service.of_str (utf8 "   "))])))
       300)
    (init_state 0%nat)
  = (inr missing_credentials, init_state 0%nat).
Proof.
  apply (unusable_options_give_missing_credentials nat (scripted portal_up)).
  right; right; right.
  exists [(utf8 "email", Service.of_str (utf8 "a@b.c"));
          (utf8 "password", Service.of_str (utf8 "   "))], (utf8 "password").
  split; [reflexivity|]. split; [right; reflexivity|].
  right. vm_compute. reflexivity.
Defined.

Lemma Forall_skipn (A : Type) (P : A -> Prop) (n : nat) (l : list A) :
  Forall P l -> Forall P (skipn n l).
Proof.
  intros H. rewrite <- (firstn_skipn n l) in H.
  now apply Forall_app in H.
Qed.

(** X19: the handler of [/chromedriver_log] returns, for a log file
    that could be read, the last lines of the text in their order: all of
    them when there are at most 200, the last 200 otherwise; none of them
    contains a line boundary. *)
Theorem chromedriver_log_tail :
  forall text,
  exists tail dropped,
    Service.chromedriver_log (Some (inr text))
    = inr [ ("exists"%string, Service.LBool true);
            ("tail"%string, Service.LLines tail) ]
    /\
    splitlines text = dropped ++ tail
    /\
    List.length tail = Nat.min 200 (List.length (splitlines text))
    /\
    Forall (fun ln => forallb (fun c => negb (is_linebreak c)) ln = true)
           tail.
Proof.
  intros text.
  exists (Service.last_lines 200 (splitlines text)),
         (firstn (List.length (splitlines text) - 200) (splitlines text)).
  split; [reflexivity|]. unfold Service.last_lines.
  split; [now rewrite firstn_skipn|].
  split; [rewrite length_skipn; lia|].
  apply Forall_skipn.
  exact (splitlines_from_unbroken (List.length text) text [] (le_n _) eq_refl).
Qed.
